(** * Gas and particulate sensor drivers: acquisition, validation, caching

    A shallow embedding of the four sensor drivers of the repository
    (dgs2_sensor.py, mcp3208_sensor.py with hcho_nh3_sensors.py,
    mics6814_sensor.py, sen66_sensor.py) and the properties of their
    conversion, validation and fallback code.

    Python floats are IEEE-754 binary64 numbers: they are modelled by Rocq's
    primitive floats, whose operations are the same binary64 operations.
    Python ints are [Z].  A method of a driver is a function in a monad that
    threads the object ([self]), the outside world (the replies of the bus
    and the log) and a possible exception, so that [try]/[except] can be
    written where the source has it. *)

From Stdlib Require Import ZArith List String Ascii Bool Lia Floats.
Import ListNotations.

Set Warnings "-inexact-float,-register-all".

Local Open Scope Z_scope.

(** ** The fragment of Python the drivers use *)

Module Py.

Inductive exn : Type :=
| ValueError
| TypeError
| KeyError
| IndexError
| ZeroDivisionError
| OverflowError
| AttributeError
| DeviceError.   (* whatever a bus library raises: OSError, SerialException, ... *)

Inductive res (A : Type) : Type :=
| Ok (a : A)
| Raise (e : exn).
Arguments Ok {A} a.
Arguments Raise {A} e.

Definition rbind {A B} (r : res A) (k : A -> res B) : res B :=
  match r with
  | Ok a => k a
  | Raise e => Raise e
  end.

Definition raised {A} (r : res A) : bool :=
  match r with Ok _ => false | Raise _ => true end.

(** *** Numbers *)

Inductive num : Type :=
| Int (z : Z)
| Flt (f : float).

(** [float(z)]: the nearest binary64 number, ties to even; an int beyond
    the range of binary64 raises. *)
Definition float_of_int (z : Z) : res float :=
  match binary_normalize prec emax z 0 false with
  | S754_infinity _ => Raise OverflowError
  | sf => Ok (SF2Prim sf)
  end.

Definition SF_of_int (z : Z) : spec_float :=
  match z with
  | Z0 => S754_zero false
  | Zpos p => S754_finite false p 0
  | Zneg p => S754_finite true p 0
  end.

(** [a / b] on two ints: the correctly rounded quotient. *)
Definition int_truediv (a b : Z) : res float :=
  if b =? 0 then Raise ZeroDivisionError
  else match SFdiv prec emax (SF_of_int a) (SF_of_int b) with
       | S754_infinity _ => Raise OverflowError
       | sf => Ok (SF2Prim sf)
       end.

(** [a / b] on two floats: only a zero divisor raises. *)
Definition float_truediv (a b : float) : res float :=
  if PrimFloat.eqb b 0%float then Raise ZeroDivisionError
  else Ok (PrimFloat.div a b).

Definition truediv (a b : num) : res num :=
  match a, b with
  | Int x, Int y => rbind (int_truediv x y) (fun q => Ok (Flt q))
  | Flt x, Flt y => rbind (float_truediv x y) (fun q => Ok (Flt q))
  | Flt x, Int y =>
      rbind (float_of_int y) (fun fy =>
      rbind (float_truediv x fy) (fun q => Ok (Flt q)))
  | Int x, Flt y =>
      rbind (float_of_int x) (fun fx =>
      rbind (float_truediv fx y) (fun q => Ok (Flt q)))
  end.

Definition mul (a b : num) : res num :=
  match a, b with
  | Int x, Int y => Ok (Int (x * y))
  | Flt x, Flt y => Ok (Flt (PrimFloat.mul x y))
  | Flt x, Int y => rbind (float_of_int y) (fun fy => Ok (Flt (PrimFloat.mul x fy)))
  | Int x, Flt y => rbind (float_of_int x) (fun fx => Ok (Flt (PrimFloat.mul fx y)))
  end.

Definition sub (a b : num) : res num :=
  match a, b with
  | Int x, Int y => Ok (Int (x - y))
  | Flt x, Flt y => Ok (Flt (PrimFloat.sub x y))
  | Flt x, Int y => rbind (float_of_int y) (fun fy => Ok (Flt (PrimFloat.sub x fy)))
  | Int x, Flt y => rbind (float_of_int x) (fun fx => Ok (Flt (PrimFloat.sub fx y)))
  end.

(** Comparison of an int with a float is exact in Python: the int is not
    rounded to a float first. *)
Definition compare_int_SF (z : Z) (sf : spec_float) : option comparison :=
  match sf with
  | S754_nan => None
  | S754_infinity s => Some (if s then Gt else Lt)
  | S754_zero _ => Some (z ?= 0)
  | S754_finite s m e =>
      let v := if s then Zneg m else Zpos m in
      if 0 <=? e then Some (z ?= v * 2 ^ e) else Some (z * 2 ^ (- e) ?= v)
  end.

Definition compare (a b : num) : option comparison :=
  match a, b with
  | Int x, Int y => Some (x ?= y)
  | Flt x, Flt y => SFcompare (Prim2SF x) (Prim2SF y)
  | Int x, Flt y => compare_int_SF x (Prim2SF y)
  | Flt x, Int y => option_map CompOpp (compare_int_SF y (Prim2SF x))
  end.

Definition lt (a b : num) : bool :=
  match compare a b with Some Lt => true | _ => false end.
Definition gt (a b : num) : bool :=
  match compare a b with Some Gt => true | _ => false end.
Definition le (a b : num) : bool :=
  match compare a b with Some (Lt | Eq) => true | _ => false end.
Definition eq (a b : num) : bool :=
  match compare a b with Some Eq => true | _ => false end.

(** [max(a, b)]: the first argument unless the second is greater. *)
Definition max (a b : num) : num := if gt b a then b else a.

(** *** Values and dicts *)

Inductive value : Type :=
| Str (s : string)
| Num (n : num)
| Dict (d : list (string * value)).

Definition dict : Type := list (string * value).

Fixpoint lookup (k : string) (d : dict) : option value :=
  match d with
  | [] => None
  | (k', v) :: rest => if String.eqb k k' then Some v else lookup k rest
  end.

(** [d[k]] *)
Definition getitem (d : dict) (k : string) : res value :=
  match lookup k d with
  | Some v => Ok v
  | None => Raise KeyError
  end.

(** [d[k] = v]: an existing key keeps its place. *)
Fixpoint setitem (k : string) (v : value) (d : dict) : dict :=
  match d with
  | [] => [(k, v)]
  | (k', v') :: rest =>
      if String.eqb k k' then (k, v) :: rest else (k', v') :: setitem k v rest
  end.

(** [v < k], [v > k] on a dict entry: ordering a str or a dict against a
    number raises. *)
Definition as_num (v : value) : res num :=
  match v with
  | Num n => Ok n
  | _ => Raise TypeError
  end.

Definition value_lt (v : value) (k : num) : res bool :=
  rbind (as_num v) (fun n => Ok (lt n k)).
Definition value_gt (v : value) (k : num) : res bool :=
  rbind (as_num v) (fun n => Ok (gt n k)).

(** [not data] for an [Optional[dict]]: [None] and the empty dict. *)
Definition falsy (data : option dict) : bool :=
  match data with
  | None | Some [] => true
  | Some (_ :: _) => false
  end.

(** *** Strings *)

(** [str.isspace] on one character (code points below 256). *)
Definition is_space (c : ascii) : bool :=
  let n := Z.of_nat (nat_of_ascii c) in
  ((9 <=? n) && (n <=? 13)) || ((28 <=? n) && (n <=? 32))
  || (n =? 133) || (n =? 160).

Fixpoint lstrip (s : string) : string :=
  match s with
  | EmptyString => EmptyString
  | String c rest => if is_space c then lstrip rest else s
  end.

Fixpoint rstrip (s : string) : string :=
  match s with
  | EmptyString => EmptyString
  | String c rest =>
      match rstrip rest with
      | EmptyString => if is_space c then EmptyString else String c EmptyString
      | r => String c r
      end
  end.

Definition strip (s : string) : string := rstrip (lstrip s).

(** [s.split(sep)] for a one-character separator. *)
Fixpoint split (sep : ascii) (s : string) : list string :=
  match s with
  | EmptyString => [EmptyString]
  | String c rest =>
      if Ascii.eqb c sep then EmptyString :: split sep rest
      else match split sep rest with
           | [] => [String c EmptyString]
           | h :: t => String c h :: t
           end
  end.

(** [s.lower()] on ASCII letters. *)
Definition lower_char (c : ascii) : ascii :=
  let n := nat_of_ascii c in
  if ((65 <=? n) && (n <=? 90))%nat then ascii_of_nat (n + 32) else c.

Fixpoint lower (s : string) : string :=
  match s with
  | EmptyString => EmptyString
  | String c rest => String (lower_char c) (lower rest)
  end.

(** [pat in s] *)
Fixpoint contains (pat s : string) : bool :=
  String.prefix pat s ||
  match s with
  | EmptyString => false
  | String _ rest => contains pat rest
  end.

(** [parts[i]] *)
Definition index {A} (l : list A) (i : nat) : res A :=
  match nth_error l i with
  | Some a => Ok a
  | None => Raise IndexError
  end.

(** *** The world outside the driver *)

(** A call into a bus library, the clock or the scheduler. *)
Inductive request : Type :=
| SerialOpen (port : string) (baudrate : Z)
| SerialWrite (data : string)
| SerialReadline
| SerialClose
| SpiNew
| SpiOpen (bus device : Z)
| SpiSpeed (hz : Z)
| SpiXfer2 (cmd : list Z)
| SpiClose
| GasNew
| SetLed (r g b : Z)
| SetHeater (on : bool)
| ReadAll
| I2cNew (port : string)
| I2cEnter
| I2cExit
| DeviceReset
| StartMeasurement
| ReadMeasuredValues
| Now
| Sleep (seconds : num).

(** What such a call comes back with.  The replies are consumed in order;
    a reply of the wrong shape, or none left, is a failed call. *)
Inductive reply : Type :=
| Done                                   (* returned, nothing to report *)
| Line (s : string)                      (* serial: one decoded line *)
| Bytes (bs : list Z)                    (* SPI: the bytes clocked in *)
| Gas (ox red nh3 : option float)        (* MICS6814: one reading *)
| Values (vs : list num)                 (* SEN66: the measured values *)
| Clock (t : string)                     (* the formatted wall-clock time *)
| Fault.                                 (* the call raised *)

Inductive level : Type := Info | Warning | Error.

Record env : Type := {
  tape : list reply;                     (* what the devices will answer *)
  sent : list request;                   (* what the driver has asked, in order *)
  log : list (level * string)
}.

(** *** Methods: state of [self], world, exceptions *)

Definition M (S A : Type) : Type := S -> env -> res A * S * env.

Definition ret {S A} (a : A) : M S A := fun s w => (Ok a, s, w).
Definition raise {S A} (e : exn) : M S A := fun s w => (Raise e, s, w).
Definition bind {S A B} (m : M S A) (k : A -> M S B) : M S B :=
  fun s w =>
    match m s w with
    | (Ok a, s', w') => k a s' w'
    | (Raise e, s', w') => (Raise e, s', w')
    end.

(** [try: body  except Exception as e: handler] *)
Definition try_except {S A} (body : M S A) (handler : exn -> M S A) : M S A :=
  fun s w =>
    match body s w with
    | (Ok a, s', w') => (Ok a, s', w')
    | (Raise e, s', w') => handler e s' w'
    end.

Definition lift {S A} (r : res A) : M S A := fun s w => (r, s, w).
Definition gets {S A} (f : S -> A) : M S A := fun s w => (Ok (f s), s, w).
Definition modify {S} (f : S -> S) : M S unit := fun s w => (Ok tt, f s, w).

Definition ask {S} (q : request) : M S reply :=
  fun s w =>
    match tape w with
    | [] => (Raise DeviceError, s, {| tape := []; sent := sent w ++ [q]; log := log w |})
    | Fault :: rest =>
        (Raise DeviceError, s, {| tape := rest; sent := sent w ++ [q]; log := log w |})
    | r :: rest => (Ok r, s, {| tape := rest; sent := sent w ++ [q]; log := log w |})
    end.

(** A call that returns nothing of interest. *)
Definition call {S} (q : request) : M S unit :=
  bind (ask q) (fun r =>
  match r with
  | Done => ret tt
  | _ => raise DeviceError
  end).

(** [time.sleep(seconds)] *)
Definition sleep {S} (seconds : num) : M S unit :=
  fun s w =>
    (Ok tt, s, {| tape := tape w; sent := sent w ++ [Sleep seconds]; log := log w |}).

End Py.

Export Py.

Declare Scope py_scope.
Delimit Scope py_scope with py.
Notation "x <- m ;; k" := (Py.bind m (fun x => k))
  (at level 61, m at next level, right associativity) : py_scope.
Notation "m ;; k" := (Py.bind m (fun _ => k))
  (at level 61, right associativity) : py_scope.
Notation "x <~ r ;; k" := (Py.rbind r (fun x => k))
  (at level 61, r at next level, right associativity) : py_scope.

Local Open Scope py_scope.
Local Open Scope string_scope.
Local Open Scope Z_scope.

(** ** The base class *)

(** Modelled from the spec: sensors/base_sensor.py is not among the sources.
    [BaseSensor.__init__] keeps the sensor's name and starts the driver
    disconnected with an empty last-valid cache ("possibly empty/absent on
    first-ever failure"); [log_info], [log_warning] and [log_error] record a
    message and never raise.  Each driver's record below carries the three
    inherited fields [sensor_name], [connected] and [last_valid_reading]. *)
Module BaseSensor.

Definition log_msg {S} (l : level) (msg : string) : M S unit :=
  fun s w =>
    (Ok tt, s, {| tape := tape w; sent := sent w; log := log w ++ [(l, msg)] |}).

Definition log_info {S} : string -> M S unit := log_msg Info.
Definition log_warning {S} : string -> M S unit := log_msg Warning.
Definition log_error {S} : string -> M S unit := log_msg Error.

End BaseSensor.

Export BaseSensor.

(** ** dgs2_sensor.py: the ASCII-serial driver *)

Module DGS2.

Record self : Type := {
  sensor_name : string;
  port : string;
  baudrate : Z;
  ser : bool;                          (* [self.ser]: a Serial object, or None *)
  initialized : bool;
  connected : bool;
  last_valid_reading : option dict
}.

Definition set_ser (b : bool) (s : self) : self :=
  {| sensor_name := sensor_name s; port := port s; baudrate := baudrate s;
     ser := b; initialized := initialized s; connected := connected s;
     last_valid_reading := last_valid_reading s |}.
Definition set_initialized (b : bool) (s : self) : self :=
  {| sensor_name := sensor_name s; port := port s; baudrate := baudrate s;
     ser := ser s; initialized := b; connected := connected s;
     last_valid_reading := last_valid_reading s |}.
Definition set_connected (b : bool) (s : self) : self :=
  {| sensor_name := sensor_name s; port := port s; baudrate := baudrate s;
     ser := ser s; initialized := initialized s; connected := b;
     last_valid_reading := last_valid_reading s |}.
Definition set_last_valid_reading (d : option dict) (s : self) : self :=
  {| sensor_name := sensor_name s; port := port s; baudrate := baudrate s;
     ser := ser s; initialized := initialized s; connected := connected s;
     last_valid_reading := d |}.

Definition __init__ (port : string) (baudrate : Z) (sensor_name : string) : self :=
  {| sensor_name := sensor_name; port := port; baudrate := baudrate;
     ser := false; initialized := false; connected := false;
     last_valid_reading := None |}.

Definition cleanup : M self unit :=
  try_except
    (has_ser <- gets ser ;;
     (if has_ser then call SerialClose else ret tt) ;;
     modify (set_initialized false) ;;
     modify (set_connected false) ;;
     log_info "Resources cleaned up")
    (fun _ => log_error "Error during cleanup").

Definition CR : string := String (ascii_of_nat 13) EmptyString.

Definition send_command (command : string) : M self string :=
  init <- gets initialized ;;
  if negb init then
    log_error "Sensor not initialized" ;;
    ret ""
  else
    try_except
      (has_ser <- gets ser ;;
       (if has_ser then call (SerialWrite (command ++ CR)) else raise AttributeError) ;;
       sleep (Flt 0.1) ;;
       r <- ask SerialReadline ;;
       match r with
       | Line response => ret (strip response)
       | _ => raise DeviceError
       end)
      (fun _ => log_error "Error sending command" ;; ret "").

Definition initialize : M self bool :=
  try_except
    (p <- gets port ;;
     b <- gets baudrate ;;
     call (SerialOpen p b) ;;
     modify (set_ser true) ;;
     sleep (Int 2) ;;
     test_response <- send_command "" ;;
     (if String.eqb test_response "" then
        log_warning "No response from DGS2 sensor during initialization"
      else ret tt) ;;
     modify (set_initialized true) ;;
     modify (set_connected true) ;;
     log_info "Initialized sensor" ;;
     ret true)
    (fun _ =>
       log_error "Error initializing" ;;
       cleanup ;;
       ret false).

Definition connect : M self bool := initialize.

Definition is_valid_reading (data : option dict) : res bool :=
  match data with
  | None | Some [] => Ok false
  | Some data =>
      ppb <~ getitem data "gas_ppb" ;;
      ppb_neg <~ value_lt ppb (Int 0) ;;
      ppm_neg <~ (if ppb_neg then Ok true
                  else ppm <~ getitem data "gas_ppm" ;; value_lt ppm (Int 0)) ;;
      if ppm_neg then Ok false else
      t <~ getitem data "temperature" ;;
      t_low <~ value_lt t (Int (-40)) ;;
      t_out <~ (if t_low then Ok true
                else t <~ getitem data "temperature" ;; value_gt t (Int 85)) ;;
      if t_out then Ok false else
      h <~ getitem data "relative_humidity" ;;
      h_low <~ value_lt h (Int 0) ;;
      h_out <~ (if h_low then Ok true
                else h <~ getitem data "relative_humidity" ;; value_gt h (Int 100)) ;;
      if h_out then Ok false else
      Ok true
  end.

Section Conversions.

(** [int(s)] and [float(s)] on a str are Python builtins; the driver is
    written against them, whatever they accept. *)
Variable int_of_str : string -> res Z.
Variable float_of_str : string -> res float.

Definition int_field (parts : list string) (i : nat) : res Z :=
  p <~ index parts i ;; int_of_str (strip p).

Definition float_field (parts : list string) (i : nat) : res float :=
  p <~ index parts i ;; float_of_str (strip p).

Definition parse_measurement (measurement_string : string) : M self (option dict) :=
  try_except
    (let parts := split "," measurement_string in
     if (7 <=? List.length parts)%nat then
       name <- gets sensor_name ;;
       gas_ppb <- lift (int_field parts 1) ;;
       temperature <- lift (t <~ float_field parts 2 ;; truediv (Flt t) (Int 100)) ;;
       relative_humidity <- lift (h <~ float_field parts 3 ;; truediv (Flt h) (Int 100)) ;;
       adc_g <- lift (int_field parts 4) ;;
       adc_t <- lift (int_field parts 5) ;;
       adc_h <- lift (int_field parts 6) ;;
       gas_ppm <- lift (n <~ int_field parts 1 ;; truediv (Int n) (Int 1000)) ;;
       ret (Some [ ("sensor", Str name);
                   ("gas_ppb", Num (Int gas_ppb));
                   ("temperature", Num temperature);
                   ("relative_humidity", Num relative_humidity);
                   ("adc_g", Num (Int adc_g));
                   ("adc_t", Num (Int adc_t));
                   ("adc_h", Num (Int adc_h));
                   ("gas_ppm", Num gas_ppm) ])
     else
       log_warning "Invalid measurement format" ;;
       ret None)
    (fun _ => log_error "Error parsing measurement" ;; ret None).

(** One turn of the loop [for key, value in data.items()]. *)
Definition sanitize_item (data : dict) (item : string * value) : M self dict :=
  let (key, value) := item in
  match value with
  | Num n =>
      if contains "temp" (lower key) then ret data
      else if lt n (Int 0) then
        log_warning "Invalid reading, replacing with 0" ;;
        ret (setitem key (Num (Int 0)) data)
      else ret data
  | _ => ret data                      (* not an int or a float *)
  end.

Fixpoint sanitize_loop (items : list (string * value)) (data : dict) : M self dict :=
  match items with
  | [] => ret data
  | item :: rest =>
      data' <- sanitize_item data item ;;
      sanitize_loop rest data'
  end.

(** The body of the [try] of [read_measurement]. *)
Definition read_measurement_body : M self (option dict) :=
  response <- send_command "" ;;
  data <- parse_measurement response ;;
  match data with
  | Some (item :: items) =>
      data' <- sanitize_loop (item :: items) (item :: items) ;;
      modify (set_last_valid_reading (Some data')) ;;
      ret (Some data')
  | _ => ret data
  end.

Definition read_measurement : M self (option dict) :=
  init <- gets initialized ;;
  ok <- (if negb init then initialize else ret true) ;;
  if negb ok then gets last_valid_reading
  else
    try_except read_measurement_body
      (fun _ =>
         log_error "Error reading" ;;
         gets last_valid_reading).

End Conversions.

End DGS2.

(** [int(s)] and [float(s)] on plain decimal integer literals (an optional
    sign and digits, blanks around them), the shape of the fields a DGS2
    prints.  They serve to run the serial driver on concrete lines. *)
Module Literal.

Definition digit (c : ascii) : option Z :=
  let n := Z.of_nat (nat_of_ascii c) in
  if (48 <=? n) && (n <=? 57) then Some (n - 48) else None.

Fixpoint digits (s : string) (acc : Z) : option Z :=
  match s with
  | EmptyString => Some acc
  | String c rest =>
      match digit c with
      | Some d => digits rest (10 * acc + d)
      | None => None
      end
  end.

Definition magnitude (s : string) : option Z :=
  match s with
  | EmptyString => None
  | _ => digits s 0
  end.

(** The sign (true when negative) and the magnitude. *)
Definition signed (s : string) : option (bool * Z) :=
  match strip s with
  | String "-" rest => option_map (pair true) (magnitude rest)
  | String "+" rest => option_map (pair false) (magnitude rest)
  | body => option_map (pair false) (magnitude body)
  end.

Definition int_of_str (s : string) : res Z :=
  match signed s with
  | Some (neg, m) => Ok (if neg then - m else m)
  | None => Raise ValueError
  end.

Definition float_of_str (s : string) : res float :=
  match signed s with
  | Some (neg, m) =>
      let f := SF2Prim (binary_normalize prec emax m 0 false) in
      Ok (if neg then PrimFloat.opp f else f)
  | None => Raise ValueError
  end.

End Literal.

(** ** mcp3208_sensor.py: the ADC-analog driver *)

Module MCP3208.

Record self : Type := {
  sensor_name : string;
  channel : Z;
  spi_bus : Z;
  spi_device : Z;
  spi_speed_hz : Z;
  vref : float;
  r_feedback : Z;
  sensitivity : float;
  spi : bool;                          (* [self.spi]: a SpiDev object, or None *)
  initialized : bool;
  connected : bool;
  last_valid_reading : option dict
}.

Definition set_spi (b : bool) (s : self) : self :=
  {| sensor_name := sensor_name s; channel := channel s; spi_bus := spi_bus s;
     spi_device := spi_device s; spi_speed_hz := spi_speed_hz s; vref := vref s;
     r_feedback := r_feedback s; sensitivity := sensitivity s;
     spi := b; initialized := initialized s; connected := connected s;
     last_valid_reading := last_valid_reading s |}.
Definition set_initialized (b : bool) (s : self) : self :=
  {| sensor_name := sensor_name s; channel := channel s; spi_bus := spi_bus s;
     spi_device := spi_device s; spi_speed_hz := spi_speed_hz s; vref := vref s;
     r_feedback := r_feedback s; sensitivity := sensitivity s;
     spi := spi s; initialized := b; connected := connected s;
     last_valid_reading := last_valid_reading s |}.
Definition set_connected (b : bool) (s : self) : self :=
  {| sensor_name := sensor_name s; channel := channel s; spi_bus := spi_bus s;
     spi_device := spi_device s; spi_speed_hz := spi_speed_hz s; vref := vref s;
     r_feedback := r_feedback s; sensitivity := sensitivity s;
     spi := spi s; initialized := initialized s; connected := b;
     last_valid_reading := last_valid_reading s |}.
Definition set_last_valid_reading (d : option dict) (s : self) : self :=
  {| sensor_name := sensor_name s; channel := channel s; spi_bus := spi_bus s;
     spi_device := spi_device s; spi_speed_hz := spi_speed_hz s; vref := vref s;
     r_feedback := r_feedback s; sensitivity := sensitivity s;
     spi := spi s; initialized := initialized s; connected := connected s;
     last_valid_reading := d |}.

(** The constructor is the one operation of the driver that may raise. *)
Definition __init__ (channel spi_bus spi_device spi_speed_hz : Z) (vref : float)
    (r_feedback : Z) (sensitivity : float) (sensor_name : string) : res self :=
  if (channel <? 0) || (channel >? 7) then Raise ValueError
  else Ok {| sensor_name := sensor_name; channel := channel; spi_bus := spi_bus;
             spi_device := spi_device; spi_speed_hz := spi_speed_hz; vref := vref;
             r_feedback := r_feedback; sensitivity := sensitivity;
             spi := false; initialized := false; connected := false;
             last_valid_reading := None |}.

Definition cleanup : M self unit :=
  try_except
    (has_spi <- gets spi ;;
     (if has_spi then call SpiClose else ret tt) ;;
     modify (set_initialized false) ;;
     modify (set_connected false) ;;
     log_info "SPI resources cleaned up")
    (fun _ => log_error "Error during cleanup").

Definition initialize : M self bool :=
  try_except
    (call SpiNew ;;
     modify (set_spi true) ;;
     bus <- gets spi_bus ;;
     device <- gets spi_device ;;
     call (SpiOpen bus device) ;;
     hz <- gets spi_speed_hz ;;
     call (SpiSpeed hz) ;;
     modify (set_initialized true) ;;
     modify (set_connected true) ;;
     log_info "MCP3208 sensor initialized" ;;
     ret true)
    (fun _ =>
       log_error "Error initializing MCP3208" ;;
       cleanup ;;
       ret false).

Definition connect : M self bool := initialize.

Definition is_valid_reading (s : self) (data : option dict) : res bool :=
  match data with
  | None | Some [] => Ok false
  | Some data =>
      c <~ getitem data "concentration" ;;
      negative <~ value_lt c (Int 0) ;;
      if negative then Ok false else
      hcho_high <~ (if String.eqb (sensor_name s) "HCHO"
                    then c <~ getitem data "concentration" ;; value_gt c (Int 100)
                    else Ok false) ;;
      if hcho_high then Ok false else
      nh3_high <~ (if String.eqb (sensor_name s) "NH3"
                   then c <~ getitem data "concentration" ;; value_gt c (Int 100)
                   else Ok false) ;;
      if nh3_high then Ok false else
      Ok true
  end.

(** The three command bytes: start bit, single-ended, the channel's three
    address bits split over the first two bytes. *)
Definition command (s : self) : list Z :=
  [ Z.lor 6 (Z.shiftr (Z.land (channel s) 4) 2);
    Z.shiftl (Z.land (channel s) 3) 6;
    0 ].

(** [self.spi.xfer2(cmd)] *)
Definition xfer2 (cmd : list Z) : M self (list Z) :=
  r <- ask (SpiXfer2 cmd) ;;
  match r with
  | Bytes resp => ret resp
  | _ => raise DeviceError
  end.

Definition read_channel : M self Z :=
  init <- gets initialized ;;
  has_spi <- gets spi ;;
  ok <- (if negb init || negb has_spi then initialize else ret true) ;;
  if negb ok then ret 0
  else
    try_except
      (cmd <- gets command ;;
       resp <- xfer2 cmd ;;
       hi <- lift (index resp 1) ;;
       lo <- lift (index resp 2) ;;
       ret (Z.lor (Z.shiftl (Z.land hi 15) 8) lo))
      (fun _ => log_error "Error reading ADC channel" ;; ret 0).

Definition adc_to_voltage (s : self) (adc_value : Z) : res float :=
  a <~ float_of_int adc_value ;;
  q <~ float_truediv a 4095%float ;;
  Ok (PrimFloat.mul q (vref s)).

Definition calculate_iout (s : self) (vout : float) : res float :=
  r <~ float_of_int (r_feedback s) ;;
  q <~ float_truediv (PrimFloat.sub (vref s) vout) r ;;
  Ok (PrimFloat.mul q 1e9%float).

Definition calculate_concentration (iout : float) : M self float :=
  sens <- gets sensitivity ;;
  if PrimFloat.leb sens 0%float then
    log_error "Invalid sensitivity value" ;;
    ret 0%float
  else lift (float_truediv iout sens).

(** The body of the [try] of [read_measurement]. *)
Definition read_measurement_body : M self (option dict) :=
  raw_adc <- read_channel ;;
  s <- gets id ;;
  voltage <- lift (adc_to_voltage s raw_adc) ;;
  iout <- lift (calculate_iout s voltage) ;;
  c <- calculate_concentration iout ;;
  concentration <- (if PrimFloat.ltb c 0%float then
                      log_warning "Invalid concentration reading, replacing with 0" ;;
                      ret (Int 0)
                    else ret (Flt c)) ;;
  ppb <- lift (mul concentration (Int 1000)) ;;
  name <- gets sensor_name ;;
  let data := [ ("sensor", Str name);
                ("raw_adc", Num (Int raw_adc));
                ("voltage", Num (Flt voltage));
                ("current_nA", Num (Flt iout));
                ("concentration", Num concentration);
                ("concentration_ppb", Num ppb) ] in
  modify (set_last_valid_reading (Some data)) ;;
  ret (Some data).

Definition read_measurement : M self (option dict) :=
  init <- gets initialized ;;
  ok <- (if negb init then initialize else ret true) ;;
  if negb ok then gets last_valid_reading
  else
    try_except read_measurement_body
      (fun _ =>
         log_error "Error reading sensor" ;;
         gets last_valid_reading).

End MCP3208.

(** ** hcho_nh3_sensors.py: the two gas species read through the ADC *)

Module HCHOSensor.
Import MCP3208.

Definition __init__ (channel spi_bus spi_device : Z) (vref : float) (r_feedback : Z)
    (sensitivity : float) : res self :=
  MCP3208.__init__ channel spi_bus spi_device 1000000 vref r_feedback sensitivity "HCHO".

(** The constructor called with its default arguments. *)
Definition default : res self := __init__ 0 0 0 3.282%float 22000 35%float.

Definition is_valid_reading (data : option dict) : M self bool :=
  s <- gets id ;;
  ok <- lift (MCP3208.is_valid_reading s data) ;;
  if negb ok then ret false
  else
    high <- lift (c <~ getitem (match data with Some d => d | None => [] end) "concentration" ;;
                  value_gt c (Flt 100)) ;;
    if high then
      log_warning "Abnormally high HCHO concentration" ;;
      ret false
    else ret true.

(** The dict that [super().read_measurement()] returns is the object held
    in [last_valid_reading]: what is stored into it shows in the cache too. *)
Definition read_measurement : M self (option dict) :=
  data <- MCP3208.read_measurement ;;
  match data with
  | Some (item :: items) =>
      let d := item :: items in
      let c := match lookup "concentration" d with Some v => v | None => Num (Int 0) end in
      negative <- lift (value_lt c (Int 0)) ;;
      d <- (if negative then
              log_warning "Invalid concentration reading corrected to 0" ;;
              ret (setitem "concentration" (Num (Int 0)) d)
            else ret d) ;;
      let d := setitem "chemical_formula" (Str "HCHO") d in
      let d := setitem "common_name" (Str "Formaldehyde") d in
      let d := setitem "unit" (Str "ppm") d in
      modify (set_last_valid_reading (Some d)) ;;
      ret (Some d)
  | _ => ret data
  end.

End HCHOSensor.

Module NH3Sensor.
Import MCP3208.

Definition __init__ (channel spi_bus spi_device : Z) (vref : float) (r_feedback : Z)
    (sensitivity : float) : res self :=
  MCP3208.__init__ channel spi_bus spi_device 1000000 vref r_feedback sensitivity "NH3".

Definition default : res self := __init__ 1 0 0 3.282%float 22000 20%float.

Definition is_valid_reading (data : option dict) : M self bool :=
  s <- gets id ;;
  ok <- lift (MCP3208.is_valid_reading s data) ;;
  if negb ok then ret false
  else
    high <- lift (c <~ getitem (match data with Some d => d | None => [] end) "concentration" ;;
                  value_gt c (Flt 100)) ;;
    if high then
      log_warning "Abnormally high NH3 concentration" ;;
      ret false
    else ret true.

(** The formula's subscript, byte for byte as the source file has it. *)
Definition formula : string :=
  "NH" ++ string_of_list_ascii
            (map (fun n => ascii_of_nat n) [195; 162; 226; 128; 154; 198; 146]%nat).

Definition read_measurement : M self (option dict) :=
  data <- MCP3208.read_measurement ;;
  match data with
  | Some (item :: items) =>
      let d := item :: items in
      let d := setitem "chemical_formula" (Str formula) d in
      let d := setitem "common_name" (Str "Ammonia") d in
      let d := setitem "unit" (Str "ppm") d in
      modify (set_last_valid_reading (Some d)) ;;
      ret (Some d)
  | _ => ret data
  end.

End NH3Sensor.

(** ** mics6814_sensor.py: the resistive-gas driver *)

Module MICS6814.

(** One resistance per gas channel: what [read_all()] returns, and the
    shape of [self.baseline]. *)
Record readings : Type := {
  oxidising : option float;
  reducing : option float;
  nh3 : option float
}.

Record self : Type := {
  sensor_name : string;
  i2c_port : Z;
  address : Z;
  calibration_time : Z;
  print_readings : bool;
  enable_led : bool;
  gas : bool;                          (* [self.gas]: a MICS6814 object, or None *)
  baseline : readings;
  initialized : bool;
  connected : bool;
  last_valid_reading : option dict
}.

Definition set_gas (b : bool) (s : self) : self :=
  {| sensor_name := sensor_name s; i2c_port := i2c_port s; address := address s;
     calibration_time := calibration_time s; print_readings := print_readings s;
     enable_led := enable_led s; gas := b; baseline := baseline s;
     initialized := initialized s; connected := connected s;
     last_valid_reading := last_valid_reading s |}.
Definition set_baseline (r : readings) (s : self) : self :=
  {| sensor_name := sensor_name s; i2c_port := i2c_port s; address := address s;
     calibration_time := calibration_time s; print_readings := print_readings s;
     enable_led := enable_led s; gas := gas s; baseline := r;
     initialized := initialized s; connected := connected s;
     last_valid_reading := last_valid_reading s |}.
Definition set_initialized (b : bool) (s : self) : self :=
  {| sensor_name := sensor_name s; i2c_port := i2c_port s; address := address s;
     calibration_time := calibration_time s; print_readings := print_readings s;
     enable_led := enable_led s; gas := gas s; baseline := baseline s;
     initialized := b; connected := connected s;
     last_valid_reading := last_valid_reading s |}.
Definition set_connected (b : bool) (s : self) : self :=
  {| sensor_name := sensor_name s; i2c_port := i2c_port s; address := address s;
     calibration_time := calibration_time s; print_readings := print_readings s;
     enable_led := enable_led s; gas := gas s; baseline := baseline s;
     initialized := initialized s; connected := b;
     last_valid_reading := last_valid_reading s |}.
Definition set_last_valid_reading (d : option dict) (s : self) : self :=
  {| sensor_name := sensor_name s; i2c_port := i2c_port s; address := address s;
     calibration_time := calibration_time s; print_readings := print_readings s;
     enable_led := enable_led s; gas := gas s; baseline := baseline s;
     initialized := initialized s; connected := connected s;
     last_valid_reading := d |}.

Definition __init__ (i2c_port address warmup_time : Z) (print_readings enable_led : bool)
    (sensor_name : string) : self :=
  {| sensor_name := sensor_name; i2c_port := i2c_port; address := address;
     calibration_time := warmup_time; print_readings := print_readings;
     enable_led := enable_led; gas := false;
     baseline := {| oxidising := None; reducing := None; nh3 := None |};
     initialized := false; connected := false; last_valid_reading := None |}.

Definition is_valid_reading (s : self) (r : readings) : bool :=
  match oxidising r, reducing r, nh3 r with
  | Some ox, Some red, Some n =>
      if PrimFloat.leb ox 0%float || PrimFloat.leb red 0%float || PrimFloat.leb n 0%float
      then false
      else
        match oxidising (baseline s), reducing (baseline s), nh3 (baseline s) with
        | Some _, Some _, Some _ => true
        | _, _, _ => false
        end
  | _, _, _ => false
  end.

Section Ppm.

(** The float division of the interpreter, [float_truediv] below. *)
Variable divide : float -> float -> res float.

Definition calculate_ppm_with (current : float) (baseline_value : option float)
    (gas_type : string) : res num :=
  match baseline_value with
  | None => Ok (Flt 0)
  | Some baseline_value =>
      if PrimFloat.leb current 0%float || PrimFloat.leb baseline_value 0%float
      then Ok (Flt 0)
      else if String.eqb gas_type "oxidising" then
        ratio <~ divide baseline_value current ;;
        Ok (max (Int 0) (Flt (PrimFloat.mul 0.1%float (PrimFloat.sub ratio 1%float))))
      else if String.eqb gas_type "reducing" then
        ratio <~ divide current baseline_value ;;
        Ok (max (Int 0) (Flt (PrimFloat.mul 4%float (PrimFloat.sub ratio 1%float))))
      else if String.eqb gas_type "nh3" then
        ratio <~ divide current baseline_value ;;
        Ok (max (Int 0) (Flt (PrimFloat.mul 5%float (PrimFloat.sub ratio 1%float))))
      else Ok (Flt 0)
  end.

End Ppm.

Definition calculate_ppm : float -> option float -> string -> res num :=
  calculate_ppm_with float_truediv.

Definition update_led (no2_ppm co_ppm nh3_ppm : num) : M self unit :=
  init <- gets initialized ;;
  has_gas <- gets gas ;;
  if negb init || negb has_gas then ret tt
  else if gt no2_ppm (Flt 0.1) then call (SetLed 255 0 0)
  else if gt co_ppm (Flt 5) then call (SetLed 255 255 0)
  else if gt nh3_ppm (Flt 1) then call (SetLed 255 0 255)
  else call (SetLed 0 255 0).

Section Availability.

(** Whether [from mics6814 import MICS6814] succeeded when the module was
    loaded. *)
Variable MICS6814_AVAILABLE : bool.

Definition cleanup : M self unit :=
  if negb MICS6814_AVAILABLE then ret tt
  else
    try_except
      (has_gas <- gets gas ;;
       (if has_gas then
          call (SetLed 0 0 0) ;;
          call (SetHeater false)
        else ret tt) ;;
       modify (set_initialized false) ;;
       modify (set_connected false) ;;
       log_info "Sensor resources cleaned up")
      (fun _ => log_error "Cleanup error").

(** [f"{x:.2f}"] in the log line of the baseline: formatting None raises. *)
Definition format_2f (x : option float) : res unit :=
  match x with
  | Some _ => Ok tt
  | None => Raise TypeError
  end.

Definition initialize : M self bool :=
  if negb MICS6814_AVAILABLE then ret false
  else
    try_except
      (call GasNew ;;
       modify (set_gas true) ;;
       call (SetLed 0 255 0) ;;
       log_info "Warming up and calibrating..." ;;
       call (SetHeater true) ;;
       t <- gets calibration_time ;;
       sleep (Int t) ;;
       r <- ask ReadAll ;;
       baseline_reading <- match r with
                           | Gas ox red n =>
                               ret {| oxidising := ox; reducing := red; nh3 := n |}
                           | _ => raise DeviceError
                           end ;;
       b <- gets baseline ;;
       modify (set_baseline {| oxidising := oxidising baseline_reading;
                               reducing := reducing b; nh3 := nh3 b |}) ;;
       b <- gets baseline ;;
       modify (set_baseline {| oxidising := oxidising b;
                               reducing := reducing baseline_reading; nh3 := nh3 b |}) ;;
       b <- gets baseline ;;
       modify (set_baseline {| oxidising := oxidising b; reducing := reducing b;
                               nh3 := nh3 baseline_reading |}) ;;
       b <- gets baseline ;;
       lift (format_2f (oxidising b)) ;;
       lift (format_2f (reducing b)) ;;
       lift (format_2f (nh3 b)) ;;
       log_info "Baseline values" ;;
       modify (set_initialized true) ;;
       modify (set_connected true) ;;
       ret true)
      (fun _ =>
         log_error "Error initializing" ;;
         cleanup ;;
         ret false).

Definition connect : M self bool := initialize.

(** [readings.oxidising] and the like, passed where a float is expected. *)
Definition the_float (x : option float) : res float :=
  match x with
  | Some f => Ok f
  | None => Raise TypeError
  end.

(** The body of the [try] of [read_measurement]. *)
Definition read_measurement_body : M self (option dict) :=
  r <- ask ReadAll ;;
  readings <- match r with
              | Gas ox red n => ret {| oxidising := ox; reducing := red; nh3 := n |}
              | _ => raise DeviceError
              end ;;
  s <- gets id ;;
  if negb (is_valid_reading s readings) then
    log_warning "Invalid readings detected" ;;
    gets last_valid_reading
  else
    b <- gets baseline ;;
    no2_ppm <- lift (c <~ the_float (oxidising readings) ;;
                     calculate_ppm c (oxidising b) "oxidising") ;;
    co_ppm <- lift (c <~ the_float (reducing readings) ;;
                    calculate_ppm c (reducing b) "reducing") ;;
    nh3_ppm <- lift (c <~ the_float (nh3 readings) ;;
                     calculate_ppm c (nh3 b) "nh3") ;;
    t <- ask Now ;;
    current_time <- match t with
                    | Clock t => ret t
                    | _ => raise DeviceError
                    end ;;
    update_led no2_ppm co_ppm nh3_ppm ;;
    name <- gets sensor_name ;;
    ox <- lift (the_float (oxidising readings)) ;;
    red <- lift (the_float (reducing readings)) ;;
    n <- lift (the_float (nh3 readings)) ;;
    let data := [ ("sensor", Str name);
                  ("timestamp", Str current_time);
                  ("raw", Dict [ ("oxidising", Num (Flt ox));
                                 ("reducing", Num (Flt red));
                                 ("nh3", Num (Flt n)) ]);
                  ("ppm", Dict [ ("no2", Num no2_ppm);
                                 ("co", Num co_ppm);
                                 ("nh3", Num nh3_ppm) ]) ] in
    modify (set_last_valid_reading (Some data)) ;;
    ret (Some data).

Definition read_measurement : M self (option dict) :=
  if negb MICS6814_AVAILABLE then ret None
  else
    init <- gets initialized ;;
    ok <- (if negb init then initialize else ret true) ;;
    if negb ok then gets last_valid_reading
    else
      try_except read_measurement_body
        (fun _ =>
           log_error "Error reading" ;;
           modify (set_initialized false) ;;
           gets last_valid_reading).

End Availability.

End MICS6814.

(** ** sen66_sensor.py: the particulate/VOC I2C driver *)

Module SEN66.

Record self : Type := {
  sensor_name : string;
  i2c_port : string;
  address : Z;
  calibration_time : Z;
  transceiver : bool;                  (* [self.transceiver]: an object, or None *)
  sensor : bool;                       (* [self.sensor]: a Sen66Device, or None *)
  initialized : bool;
  connected : bool;
  last_valid_reading : option dict
}.

Definition set_transceiver (b : bool) (s : self) : self :=
  {| sensor_name := sensor_name s; i2c_port := i2c_port s; address := address s;
     calibration_time := calibration_time s; transceiver := b; sensor := sensor s;
     initialized := initialized s; connected := connected s;
     last_valid_reading := last_valid_reading s |}.
Definition set_sensor (b : bool) (s : self) : self :=
  {| sensor_name := sensor_name s; i2c_port := i2c_port s; address := address s;
     calibration_time := calibration_time s; transceiver := transceiver s; sensor := b;
     initialized := initialized s; connected := connected s;
     last_valid_reading := last_valid_reading s |}.
Definition set_initialized (b : bool) (s : self) : self :=
  {| sensor_name := sensor_name s; i2c_port := i2c_port s; address := address s;
     calibration_time := calibration_time s; transceiver := transceiver s;
     sensor := sensor s; initialized := b; connected := connected s;
     last_valid_reading := last_valid_reading s |}.
Definition set_connected (b : bool) (s : self) : self :=
  {| sensor_name := sensor_name s; i2c_port := i2c_port s; address := address s;
     calibration_time := calibration_time s; transceiver := transceiver s;
     sensor := sensor s; initialized := initialized s; connected := b;
     last_valid_reading := last_valid_reading s |}.
Definition set_last_valid_reading (d : option dict) (s : self) : self :=
  {| sensor_name := sensor_name s; i2c_port := i2c_port s; address := address s;
     calibration_time := calibration_time s; transceiver := transceiver s;
     sensor := sensor s; initialized := initialized s; connected := connected s;
     last_valid_reading := d |}.

Definition __init__ (i2c_port : string) (address calibration_time : Z)
    (sensor_name : string) : self :=
  {| sensor_name := sensor_name; i2c_port := i2c_port; address := address;
     calibration_time := calibration_time; transceiver := false; sensor := false;
     initialized := false; connected := false; last_valid_reading := None |}.

(** [data[k] < 0] inside a chain of [or]: not evaluated once the chain is
    already true. *)
Definition or_negative (data : dict) (sofar : res bool) (k : string) : res bool :=
  b <~ sofar ;;
  if b then Ok true else v <~ getitem data k ;; value_lt v (Int 0).

Definition is_valid_reading (data : option dict) : res bool :=
  match data with
  | None | Some [] => Ok false
  | Some data =>
      negative <~ fold_left (or_negative data)
                    ["pm1.0"; "pm2.5"; "pm4.0"; "pm10"; "VOC_Index"; "NOx_Index"; "CO2"]
                    (Ok false) ;;
      if negative then Ok false else
      t <~ getitem data "temperature" ;;
      t_low <~ value_lt t (Int (-40)) ;;
      t_out <~ (if t_low then Ok true
                else t <~ getitem data "temperature" ;; value_gt t (Int 85)) ;;
      if t_out then Ok false else
      h <~ getitem data "humidity" ;;
      h_low <~ value_lt h (Int 0) ;;
      h_out <~ (if h_low then Ok true
                else h <~ getitem data "humidity" ;; value_gt h (Int 100)) ;;
      if h_out then Ok false else
      Ok true
  end.

Section Availability.

(** Whether the Sensirion libraries could be imported when the module
    was loaded. *)
Variable SENSIRION_AVAILABLE : bool.

Definition cleanup : M self unit :=
  if negb SENSIRION_AVAILABLE then ret tt
  else
    try_except
      (has_transceiver <- gets transceiver ;;
       (if has_transceiver then call I2cExit else ret tt) ;;
       modify (set_initialized false) ;;
       modify (set_connected false) ;;
       log_info "Resources cleaned up")
      (fun _ => log_error "Error during cleanup").

Definition initialize : M self bool :=
  if negb SENSIRION_AVAILABLE then ret false
  else
    try_except
      (p <- gets i2c_port ;;
       call (I2cNew p) ;;
       modify (set_transceiver true) ;;
       call I2cEnter ;;
       modify (set_sensor true) ;;
       call DeviceReset ;;
       log_info "Calibrating..." ;;
       t <- gets calibration_time ;;
       sleep (Int t) ;;
       log_info "Calibration complete." ;;
       call StartMeasurement ;;
       modify (set_initialized true) ;;
       modify (set_connected true) ;;
       ret true)
      (fun _ =>
         log_error "Error initializing" ;;
         cleanup ;;
         ret false).

Definition connect : M self bool := initialize.

(** The body of the [try] of [read_measurement]. *)
Definition read_measurement_body : M self (option dict) :=
  has_sensor <- gets sensor ;;
  r <- (if has_sensor then ask ReadMeasuredValues else raise AttributeError) ;;
  values <- match r with
            | Values vs => ret vs
            | _ => raise DeviceError
            end ;;
  name <- gets sensor_name ;;
  temperature <- lift (index values 5) ;;
  humidity <- lift (index values 4) ;;
  pm1_0 <- lift (index values 0) ;;
  pm2_5 <- lift (index values 1) ;;
  pm4_0 <- lift (index values 2) ;;
  pm10 <- lift (index values 3) ;;
  voc <- lift (index values 6) ;;
  nox <- lift (index values 7) ;;
  co2 <- lift (index values 8) ;;
  let data := [ ("sensor", Str name);
                ("temperature", Num temperature);
                ("humidity", Num humidity);
                ("pm1.0", Num pm1_0);
                ("pm2.5", Num pm2_5);
                ("pm4.0", Num pm4_0);
                ("pm10", Num pm10);
                ("VOC_Index", Num voc);
                ("NOx_Index", Num nox);
                ("CO2", Num co2) ] in
  valid <- lift (is_valid_reading (Some data)) ;;
  if negb valid then
    log_warning "Suspicious reading" ;;
    gets last_valid_reading
  else
    modify (set_last_valid_reading (Some data)) ;;
    ret (Some data).

Definition read_measurement : M self (option dict) :=
  if negb SENSIRION_AVAILABLE then ret None
  else
    init <- gets initialized ;;
    ok <- (if negb init then initialize else ret true) ;;
    if negb ok then gets last_valid_reading
    else
      try_except read_measurement_body
        (fun _ =>
           log_error "Error reading" ;;
           modify (set_initialized false) ;;
           gets last_valid_reading).

End Availability.

End SEN66.


(** ** Vocabulary of the statements *)

(** A method that returns to its caller whatever the state of the driver
    and of the world: it never raises. *)
Definition never_raises {S A} (m : M S A) : Prop :=
  forall s w, exists a s' w', m s w = (Ok a, s', w').

(** A method that, besides, leaves the driver's own fields as they were. *)
Definition keeps_self {S A} (m : M S A) : Prop :=
  forall s w, exists a w', m s w = (Ok a, s, w').

(** [x] lies strictly within [tol] of [target]. *)
Definition near (x target tol : float) : bool :=
  PrimFloat.ltb (PrimFloat.sub target tol) x && PrimFloat.ltb x (PrimFloat.add target tol).

(** A world in which the devices will give the replies [t], and nothing
    has been asked or logged yet. *)
Definition world (t : list reply) : env := {| tape := t; sent := []; log := [] |}.

(** The record the serial driver builds from the seven converted fields. *)
Definition DGS2_record (name : string) (gas_ppb : Z) (temperature relative_humidity : num)
    (adc_g adc_t adc_h : Z) (gas_ppm : num) : dict :=
  [ ("sensor", Str name);
    ("gas_ppb", Num (Int gas_ppb));
    ("temperature", Num temperature);
    ("relative_humidity", Num relative_humidity);
    ("adc_g", Num (Int adc_g));
    ("adc_t", Num (Int adc_t));
    ("adc_h", Num (Int adc_h));
    ("gas_ppm", Num gas_ppm) ].

(** ** Drivers, inputs and records of the statements *)

(** A serial driver that has connected and read once: 5000 ppb, that is
    5.0 ppm, at 21.5 degrees and 40 % humidity. *)
Definition serial_ready : DGS2.self :=
  {| DGS2.sensor_name := "CO"; DGS2.port := "/dev/ttyUSB0"; DGS2.baudrate := 9600;
     DGS2.ser := true; DGS2.initialized := true; DGS2.connected := true;
     DGS2.last_valid_reading :=
       Some (DGS2_record "CO" 5000 (Flt 21.5) (Flt 40) 100 200 300 (Flt 5)) |}.

(** A resistive driver that has warmed up with the baseline 100, 200, 150
    and holds one earlier record. *)
Definition resistive_ready : MICS6814.self :=
  {| MICS6814.sensor_name := "MICS6814"; MICS6814.i2c_port := 1; MICS6814.address := 25;
     MICS6814.calibration_time := 30; MICS6814.print_readings := false;
     MICS6814.enable_led := true; MICS6814.gas := true;
     MICS6814.baseline := {| MICS6814.oxidising := Some 100%float;
                             MICS6814.reducing := Some 200%float;
                             MICS6814.nh3 := Some 150%float |};
     MICS6814.initialized := true; MICS6814.connected := true;
     MICS6814.last_valid_reading := Some [("sensor", Str "MICS6814")] |}.

(** An ADC driver built, on channel 0, with a sensitivity of zero. *)
Definition insensitive : MCP3208.self :=
  {| MCP3208.sensor_name := "HCHO"; MCP3208.channel := 0; MCP3208.spi_bus := 0;
     MCP3208.spi_device := 0; MCP3208.spi_speed_hz := 1000000;
     MCP3208.vref := 3.282%float; MCP3208.r_feedback := 22000;
     MCP3208.sensitivity := 0%float; MCP3208.spi := false;
     MCP3208.initialized := false; MCP3208.connected := false;
     MCP3208.last_valid_reading := None |}.

(** A division that always raises: a function that returns a value with it
    has not divided. *)
Definition no_division (a b : float) : res float := Raise ZeroDivisionError.

(** [x] is not below zero; [x] is neither below [lo] nor above [hi]. *)
Definition nonnegative (x : num) : bool := negb (lt x (Int 0)).
Definition within (lo hi : Z) (x : num) : bool :=
  negb (lt x (Int lo)) && negb (gt x (Int hi)).

(** The record of a particulate driver's read. *)
Definition SEN66_record (name : string) (temperature humidity pm1 pm25 pm4 pm10 voc nox co2 : num)
    : dict :=
  [ ("sensor", Str name);
    ("temperature", Num temperature);
    ("humidity", Num humidity);
    ("pm1.0", Num pm1);
    ("pm2.5", Num pm25);
    ("pm4.0", Num pm4);
    ("pm10", Num pm10);
    ("VOC_Index", Num voc);
    ("NOx_Index", Num nox);
    ("CO2", Num co2) ].

(** A negative number becomes the int 0; anything else stays. *)
Definition zero_if_negative (v : value) : value :=
  match v with
  | Num n => if lt n (Int 0) then Num (Int 0) else v
  | _ => v
  end.

(** What the loop of [read_measurement] makes of one entry. *)
Definition sanitized (item : string * value) : string * value :=
  let (key, v) := item in
  if contains "temp" (lower key) then (key, v) else (key, zero_if_negative v).

(** A line of seven fields whose ppb field is 1 followed by 400 zeros. *)
Definition huge_ppb_line : string :=
  "DGS2,1" ++ string_of_list_ascii (repeat "0"%char 400) ++ ",2150,4000,100,200,300".

(** A line as the sensor prints it: 5000 ppb at 21.50 degrees and 40.00 %. *)
Definition sample_line : string := "123456,5000,2150,4000,100,200,300".

(** [R] relates the driver before a method to the driver after it,
    however the method ends. *)
Definition steps {S A} (R : S -> S -> Prop) (m : M S A) : Prop :=
  forall s w, R s (snd (fst (m s w))).

(** The cache is as it was, or it holds a record that validation accepts. *)
Definition SEN66_guard (s s' : SEN66.self) : Prop :=
  SEN66.last_valid_reading s' = SEN66.last_valid_reading s \/
  exists d, SEN66.last_valid_reading s' = Some d /\
            SEN66.is_valid_reading (Some d) = Ok true.

(** The cache is as it was, or it holds the record of a reading that
    validation accepted. *)
Definition MICS6814_guard (s s' : MICS6814.self) : Prop :=
  MICS6814.last_valid_reading s' = MICS6814.last_valid_reading s \/
  exists d ox red n s0,
    MICS6814.last_valid_reading s' = Some d /\
    lookup "raw" d = Some (Dict [ ("oxidising", Num (Flt ox));
                                  ("reducing", Num (Flt red));
                                  ("nh3", Num (Flt n)) ]) /\
    MICS6814.is_valid_reading s0
      {| MICS6814.oxidising := Some ox; MICS6814.reducing := Some red;
         MICS6814.nh3 := Some n |} = true.

(** The record of an ADC driver's read. *)
Definition MCP3208_record (name : string) (raw_adc : Z) (voltage current_nA : float)
    (concentration concentration_ppb : num) : dict :=
  [ ("sensor", Str name);
    ("raw_adc", Num (Int raw_adc));
    ("voltage", Num (Flt voltage));
    ("current_nA", Num (Flt current_nA));
    ("concentration", Num concentration);
    ("concentration_ppb", Num concentration_ppb) ].

(** The count that [read_channel] assembles from the bytes clocked in. *)
Definition adc_count (hi lo : Z) : Z := Z.lor (Z.shiftl (Z.land hi 15) 8) lo.

(** The formaldehyde driver as its constructor leaves it with the default
    arguments: Vref 3.282, feedback 22000, sensitivity 35. *)
Definition hcho_fresh : MCP3208.self :=
  {| MCP3208.sensor_name := "HCHO"; MCP3208.channel := 0; MCP3208.spi_bus := 0;
     MCP3208.spi_device := 0; MCP3208.spi_speed_hz := 1000000;
     MCP3208.vref := 3.282%float; MCP3208.r_feedback := 22000;
     MCP3208.sensitivity := 35%float; MCP3208.spi := false;
     MCP3208.initialized := false; MCP3208.connected := false;
     MCP3208.last_valid_reading := None |}.

(** The same driver after a first read of the count 4090, about 5.2 ppm. *)
Definition hcho_ready : MCP3208.self :=
  snd (fst (MCP3208.read_measurement hcho_fresh
              (world [Done; Done; Done; Bytes [0; 15; 250]]))).

(** The record of that first read. *)
Definition hcho_first : dict :=
  MCP3208_record "HCHO" 4090 3.2779926739926739%float 182.15118215118716%float
    (Flt 5.2043194900339191%float) (Flt 5204.3194900339195%float).

(** The counts of a 12-bit converter. *)
Definition adc_counts : list Z := map Z.of_nat (seq 0 4096).

(** A line with a temperature field of 9000: 90 degrees. *)
Definition hot_line : string := "123456,5000,9000,4000,100,200,300".

(** ** Rounding to binary64, and the order of floats *)

(** The record after [n >= 1] shifts of [m]. *)
Definition shifted (m n : Z) : shr_record :=
  {| shr_m := m / 2 ^ n;
     shr_r := Z.odd (m / 2 ^ (n - 1));
     shr_s := negb (m mod 2 ^ (n - 1) =? 0) |}.

(** [m / 2 ^ n] rounded to the nearest integer, ties to even. *)
Definition rne (m n : Z) : Z :=
  let q := m / 2 ^ n in
  let r := m mod 2 ^ n in
  if r <? 2 ^ (n - 1) then q
  else if r =? 2 ^ (n - 1) then (if Z.even q then q else q + 1)
  else q + 1.

(** How a rounded mantissa [q], between 0 and 2^53, at the exponent [E],
    becomes a float. *)
Definition finish (s : bool) (q E : Z) : spec_float :=
  match q with
  | Z0 => S754_zero s
  | Zpos p =>
      if q <? 2 ^ 53 then
        if E <=? 971 then S754_finite s p E else S754_infinity s
      else
        if E + 1 <=? 971 then S754_finite s (2 ^ 52)%positive (E + 1) else S754_infinity s
  | Zneg _ => S754_nan
  end.

(** The place of a non-negative float in the order of floats. *)
Definition rank (x : spec_float) : Z :=
  match x with
  | S754_zero _ => 0
  | S754_finite false m e => (e + 1075) * 2 ^ 53 + Z.pos m
  | S754_infinity false => 2100 * 2 ^ 53
  | _ => -1
  end.

(** Zero, plus infinity, or a positive float whose mantissa and exponent
    are within the bounds of binary64. *)
Definition ranked (x : spec_float) : Prop :=
  match x with
  | S754_zero _ => True
  | S754_finite false m e => Z.pos m < 2 ^ 53 /\ -1074 <= e <= 971
  | S754_infinity false => True
  | _ => False
  end.

(** The quotient [r / 4095.0] as a binary64 datum. *)
Definition ratio (r : Z) : spec_float :=
  match float_of_int r with
  | Ok fr => Prim2SF (PrimFloat.div fr 4095%float)
  | Raise _ => S754_nan
  end.

(** A positive normal number below 2: mantissa of 53 bits, exponent in
    [-65, -1]. *)
Definition scaled (x : spec_float) : bool :=
  match x with
  | S754_finite false m e => (2 ^ 52 <=? Z.pos m) && (-65 <=? e) && (e <? 0)
  | _ => false
  end.

(** The value of a scaled number, in units of 2^-65. *)
Definition units (x : spec_float) : Z :=
  match x with
  | S754_finite false m e => Z.pos m * 2 ^ (e + 65)
  | _ => 0
  end.

(** The driver built with a reference of -3.282 V. *)
Definition reversed : MCP3208.self :=
  {| MCP3208.sensor_name := "HCHO"; MCP3208.channel := 0; MCP3208.spi_bus := 0;
     MCP3208.spi_device := 0; MCP3208.spi_speed_hz := 1000000;
     MCP3208.vref := (-3.282)%float; MCP3208.r_feedback := 22000;
     MCP3208.sensitivity := 35%float; MCP3208.spi := false;
     MCP3208.initialized := false; MCP3208.connected := false;
     MCP3208.last_valid_reading := None |}.

(** ** Methods that never raise *)

Section Safety.

Context {S : Type}.

Lemma never_raises_ret {A} (a : A) : never_raises (@ret S A a).
Proof. intros s w. unfold ret. eauto. Qed.

Lemma never_raises_gets {A} (f : S -> A) : never_raises (gets f).
Proof. intros s w. unfold gets. eauto. Qed.

Lemma never_raises_modify (f : S -> S) : never_raises (modify f).
Proof. intros s w. unfold modify. eauto. Qed.

Lemma never_raises_log (l : level) (msg : string) : never_raises (@log_msg S l msg).
Proof. intros s w. unfold log_msg. eauto. Qed.

Lemma never_raises_sleep (n : num) : never_raises (@sleep S n).
Proof. intros s w. unfold sleep. eauto. Qed.

Lemma never_raises_bind {A B} (m : M S A) (k : A -> M S B) :
  never_raises m -> (forall a, never_raises (k a)) -> never_raises (bind m k).
Proof.
  intros Hm Hk s w. unfold bind.
  destruct (Hm s w) as (a & s1 & w1 & ->). apply Hk.
Qed.

Lemma never_raises_try {A} (body : M S A) (handler : exn -> M S A) :
  (forall e, never_raises (handler e)) -> never_raises (try_except body handler).
Proof.
  intros Hh s w. unfold try_except.
  destruct (body s w) as [[[a|e] s1] w1]; [eauto | apply Hh].
Qed.

Lemma never_raises_if {A} (c : bool) (m1 m2 : M S A) :
  never_raises m1 -> never_raises m2 -> never_raises (if c then m1 else m2).
Proof. destruct c; auto. Qed.

Lemma keeps_self_never_raises {A} (m : M S A) : keeps_self m -> never_raises m.
Proof. intros H s w. destruct (H s w) as (a & w' & ->). eauto. Qed.

Lemma keeps_self_ret {A} (a : A) : keeps_self (@ret S A a).
Proof. intros s w. unfold ret. eauto. Qed.

Lemma keeps_self_gets {A} (f : S -> A) : keeps_self (gets f).
Proof. intros s w. unfold gets. eauto. Qed.

Lemma keeps_self_log (l : level) (msg : string) : keeps_self (@log_msg S l msg).
Proof. intros s w. unfold log_msg. eauto. Qed.

Lemma keeps_self_sleep (n : num) : keeps_self (@sleep S n).
Proof. intros s w. unfold sleep. eauto. Qed.

Lemma keeps_self_bind {A B} (m : M S A) (k : A -> M S B) :
  keeps_self m -> (forall a, keeps_self (k a)) -> keeps_self (bind m k).
Proof.
  intros Hm Hk s w. unfold bind.
  destruct (Hm s w) as (a & w1 & ->). apply Hk.
Qed.

Lemma keeps_self_if {A} (c : bool) (m1 m2 : M S A) :
  keeps_self m1 -> keeps_self m2 -> keeps_self (if c then m1 else m2).
Proof. destruct c; auto. Qed.

(** A [try] whose body cannot touch [self] before it raises. *)
Lemma keeps_self_try {A} (body : M S A) (handler : exn -> M S A) :
  (forall s w, exists r w', body s w = (r, s, w')) ->
  (forall e, keeps_self (handler e)) ->
  keeps_self (try_except body handler).
Proof.
  intros Hb Hh s w. unfold try_except.
  destruct (Hb s w) as ([a|e] & w1 & ->); [eauto | apply Hh].
Qed.

End Safety.

Create HintDb safe.

#[local] Hint Resolve never_raises_ret never_raises_gets never_raises_modify
  never_raises_log never_raises_sleep never_raises_if : safe.
#[local] Hint Resolve keeps_self_ret keeps_self_gets keeps_self_log keeps_self_sleep
  keeps_self_if : safe.

Ltac safe_step :=
  first
    [ apply never_raises_try; intros ?
    | apply never_raises_bind; [ | intros ? ]
    | apply keeps_self_bind; [ | intros ? ]
    | progress unfold log_info, log_warning, log_error
    | solve [ auto with safe ] ].

Ltac safe := repeat safe_step.

(** Unfolds the monad down to the pairs it computes on. *)
Ltac run :=
  cbv beta iota zeta delta
    [bind try_except ret raise lift gets modify ask call sleep
     log_info log_warning log_error log_msg].


Lemma DGS2_cleanup_never_raises : never_raises DGS2.cleanup.
Proof. unfold DGS2.cleanup. safe. Qed.

Lemma DGS2_send_command_keeps_self (c : string) : keeps_self (DGS2.send_command c).
Proof.
  unfold DGS2.send_command. safe.
  apply keeps_self_if; safe.
  apply keeps_self_try; [ | intros; safe ].
  intros s w.
  run.
  destruct (DGS2.ser s); simpl; [ | eauto ].
  destruct (tape w) as [|r1 t1]; simpl; [ eauto | ].
  destruct r1; simpl; eauto.
  destruct t1 as [|r2 t2]; simpl; [ eauto | ].
  destruct r2; simpl; eauto.
Qed.

Lemma DGS2_initialize_never_raises : never_raises DGS2.initialize.
Proof.
  unfold DGS2.initialize. safe.
Qed.

Lemma DGS2_parse_measurement_keeps_self i f (line : string) :
  keeps_self (DGS2.parse_measurement i f line).
Proof.
  unfold DGS2.parse_measurement.
  apply keeps_self_try; [ | intros; safe ].
  intros s w. cbv zeta.
  destruct (7 <=? List.length (split "," line))%nat.
  - run.
    repeat match goal with
           | |- context [match ?r with Ok _ => _ | Raise _ => _ end] =>
               destruct r; [ | eauto ]
           end.
    eauto.
  - run. eauto.
Qed.

Lemma DGS2_sanitize_item_keeps_self (data : dict) (item : string * value) :
  keeps_self (DGS2.sanitize_item data item).
Proof.
  destruct item as [key [s|n|d]]; unfold DGS2.sanitize_item; safe.
  destruct (contains "temp" (lower key)); safe.
  destruct (lt n (Int 0)); safe.
Qed.

Lemma DGS2_sanitize_loop_keeps_self (items : list (string * value)) :
  forall data, keeps_self (DGS2.sanitize_loop items data).
Proof.
  induction items as [|item rest IH]; intros data; simpl; safe.
  apply DGS2_sanitize_item_keeps_self.
Qed.

Lemma setitem_nonempty (k : string) (v : value) (d : dict) : setitem k v d <> [].
Proof. destruct d as [|[k' v'] d]; simpl; [ | destruct (String.eqb k k') ]; discriminate. Qed.

Lemma DGS2_sanitize_loop_nonempty (items : list (string * value)) :
  forall data s w d s' w',
    DGS2.sanitize_loop items data s w = (Ok d, s', w') -> data <> [] -> d <> [].
Proof.
  induction items as [|[key v] rest IH]; intros data s w d s' w'; simpl; run.
  - intros [= <- _ _]. auto.
  - destruct v as [str|n|sub]; try (intros H; eapply IH; eassumption).
    destruct (contains "temp" (lower key)); [ intros H; eapply IH; eassumption | ].
    destruct (lt n (Int 0)); intros H Hd; eapply IH; try eassumption.
    apply setitem_nonempty.
Qed.

(** What a successful parse has gone through. *)
Lemma DGS2_parse_measurement_inv i f (line : string) (s s' : DGS2.self) (w w' : env)
    (d : dict) :
  DGS2.parse_measurement i f line s w = (Ok (Some d), s', w') ->
  s' = s /\ w' = w /\ (7 <= List.length (split "," line))%nat /\
  exists ppb t h g tt hh ppm,
    DGS2.int_field i (split "," line) 1 = Ok ppb /\
    (t0 <~ DGS2.float_field f (split "," line) 2 ;; truediv (Flt t0) (Int 100)) = Ok t /\
    (h0 <~ DGS2.float_field f (split "," line) 3 ;; truediv (Flt h0) (Int 100)) = Ok h /\
    DGS2.int_field i (split "," line) 4 = Ok g /\
    DGS2.int_field i (split "," line) 5 = Ok tt /\
    DGS2.int_field i (split "," line) 6 = Ok hh /\
    truediv (Int ppb) (Int 1000) = Ok ppm /\
    d = DGS2_record (DGS2.sensor_name s) ppb t h g tt hh ppm.
Proof.
  unfold DGS2.parse_measurement. cbv zeta.
  destruct (7 <=? List.length (split "," line))%nat eqn:Hlen; run; [ | discriminate ].
  apply Nat.leb_le in Hlen.
  destruct (DGS2.int_field i (split "," line) 1) as [ppb|] eqn:E1; [ | discriminate ].
  destruct (t0 <~ DGS2.float_field f (split "," line) 2;; truediv (Flt t0) (Int 100))
    as [t|] eqn:E2; [ | discriminate ].
  destruct (h0 <~ DGS2.float_field f (split "," line) 3;; truediv (Flt h0) (Int 100))
    as [h|] eqn:E3; [ | discriminate ].
  destruct (DGS2.int_field i (split "," line) 4) as [g|] eqn:E4; [ | discriminate ].
  destruct (DGS2.int_field i (split "," line) 5) as [tt|] eqn:E5; [ | discriminate ].
  destruct (DGS2.int_field i (split "," line) 6) as [hh|] eqn:E6; [ | discriminate ].
  change (n <~ Ok ppb ;; truediv (Int n) (Int 1000)) with (truediv (Int ppb) (Int 1000)).
  destruct (truediv (Int ppb) (Int 1000)) as [ppm|] eqn:E7; [ | discriminate ].
  intros [= <- <- <-].
  repeat split; auto.
  exists ppb, t, h, g, tt, hh, ppm. repeat split; auto.
Qed.

(** On a driver that is already initialized, a read of the serial driver
    has two outcomes only: no data, with the driver untouched, or a fresh
    record, which is also the new cache. *)
Lemma DGS2_read_initialized i f (s : DGS2.self) (w : env) :
  DGS2.initialized s = true ->
  exists w',
    DGS2.read_measurement i f s w = (Ok None, s, w') \/
    exists d, d <> [] /\
      DGS2.read_measurement i f s w
      = (Ok (Some d), DGS2.set_last_valid_reading (Some d) s, w').
Proof.
  intros Hinit.
  unfold DGS2.read_measurement, DGS2.read_measurement_body. run.
  rewrite Hinit. cbv beta iota delta [negb].
  destruct (DGS2_send_command_keeps_self "" s w) as (response & w1 & ->).
  destruct (DGS2_parse_measurement_keeps_self i f response s w1) as (data & w2 & E0).
  rewrite E0.
  destruct data as [[|item items]|].
  - apply DGS2_parse_measurement_inv in E0.
    destruct E0 as (_ & _ & _ & ppb & t & h & g & tt & hh & ppm & E0).
    decompose [and] E0. discriminate.
  - destruct (DGS2_sanitize_loop_keeps_self (item :: items) (item :: items) s w2)
      as (d & w3 & E).
    rewrite E. exists w3. right. exists d. split; [ | reflexivity ].
    eapply DGS2_sanitize_loop_nonempty; [ exact E | discriminate ].
  - eauto.
Qed.

Lemma DGS2_read_measurement_never_raises i f : never_raises (DGS2.read_measurement i f).
Proof.
  unfold DGS2.read_measurement. safe.
  - apply never_raises_if; safe.
  - destruct a0; simpl; safe.
Qed.

(** *** Facts on binary64 comparisons *)

Lemma leb_false_nonzero (x : float) :
  PrimFloat.leb x 0%float = false -> PrimFloat.eqb x 0%float = false.
Proof.
  rewrite leb_spec, eqb_spec. unfold SFleb, SFeqb.
  destruct (SFcompare (Prim2SF x) (Prim2SF 0)) as [[]|]; congruence.
Qed.

Lemma ltb_zero_leb (x : float) :
  PrimFloat.ltb 0%float x = true -> PrimFloat.leb x 0%float = false.
Proof.
  rewrite leb_spec, ltb_spec. unfold SFleb, SFltb.
  change (Prim2SF 0) with (S754_zero false).
  destruct (Prim2SF x) as [s|s| |s m e]; simpl; try destruct s; congruence.
Qed.

Lemma float_truediv_positive (a b : float) :
  PrimFloat.leb b 0%float = false -> float_truediv a b = Ok (PrimFloat.div a b).
Proof.
  intros H. unfold float_truediv. now rewrite (leb_false_nonzero b H).
Qed.

(** *** The other drivers *)

Lemma MCP3208_cleanup_never_raises : never_raises MCP3208.cleanup.
Proof. unfold MCP3208.cleanup. safe. Qed.

Lemma MCP3208_initialize_never_raises : never_raises MCP3208.initialize.
Proof. unfold MCP3208.initialize. safe. Qed.

Lemma MCP3208_read_channel_never_raises : never_raises MCP3208.read_channel.
Proof.
  unfold MCP3208.read_channel. safe.
  - apply never_raises_if; safe.
  - apply never_raises_if; safe.
Qed.

Lemma MCP3208_calculate_concentration_never_raises (iout : float) :
  never_raises (MCP3208.calculate_concentration iout).
Proof.
  intros s w. unfold MCP3208.calculate_concentration. run.
  destruct (PrimFloat.leb (MCP3208.sensitivity s) 0) eqn:E; [ eauto | ].
  rewrite (float_truediv_positive _ _ E). eauto.
Qed.

Lemma MCP3208_read_measurement_never_raises : never_raises MCP3208.read_measurement.
Proof.
  unfold MCP3208.read_measurement. safe.
  - apply never_raises_if; safe.
  - destruct a0; simpl; safe.
Qed.

Lemma MICS6814_cleanup_never_raises av : never_raises (MICS6814.cleanup av).
Proof. unfold MICS6814.cleanup. destruct av; simpl; safe. Qed.

Lemma MICS6814_initialize_never_raises av : never_raises (MICS6814.initialize av).
Proof.
  unfold MICS6814.initialize. destruct av; simpl; safe.
Qed.

Lemma MICS6814_read_measurement_never_raises av :
  never_raises (MICS6814.read_measurement av).
Proof.
  unfold MICS6814.read_measurement. destruct av; simpl; safe.
  - apply never_raises_if; safe.
  - destruct a0; simpl; safe.
Qed.

Lemma SEN66_cleanup_never_raises av : never_raises (SEN66.cleanup av).
Proof. unfold SEN66.cleanup. destruct av; simpl; safe. Qed.

Lemma SEN66_initialize_never_raises av : never_raises (SEN66.initialize av).
Proof.
  unfold SEN66.initialize. destruct av; simpl; safe.
Qed.

Lemma SEN66_read_measurement_never_raises av :
  never_raises (SEN66.read_measurement av).
Proof.
  unfold SEN66.read_measurement. destruct av; simpl; safe.
  - apply never_raises_if; safe.
  - destruct a0; simpl; safe.
Qed.

(** Case analysis on whatever the next [match] of the goal inspects. *)
Ltac split_match :=
  match goal with
  | |- context [match ?x with _ => _ end] =>
      lazymatch x with
      | context [match _ with _ => _ end] => fail
      | _ => destruct x eqn:?
      end
  end.

(** When the try body of the resistive driver's read raises, the driver's
    fields, the cache among them, are as they were before the read. *)
Lemma MICS6814_body_raise (s s1 : MICS6814.self) (w w1 : env) (e : exn) :
  MICS6814.read_measurement_body s w = (Raise e, s1, w1) -> s1 = s.
Proof.
  unfold MICS6814.read_measurement_body, MICS6814.update_led. run.
  repeat split_match; intros H; inversion H; subst; reflexivity.
Qed.

Lemma MICS6814_read_failure (s s1 : MICS6814.self) (w w1 : env) (e : exn) :
  MICS6814.initialized s = true ->
  MICS6814.read_measurement_body s w = (Raise e, s1, w1) ->
  MICS6814.read_measurement true s w
  = (Ok (MICS6814.last_valid_reading s), MICS6814.set_initialized false s,
     {| tape := tape w1; sent := sent w1; log := log w1 ++ [(Error, "Error reading")] |}).
Proof.
  intros Hinit Hbody.
  assert (s1 = s) as -> by (eapply MICS6814_body_raise; eassumption).
  unfold MICS6814.read_measurement. cbv beta iota delta [negb]. run.
  rewrite Hinit. cbv beta iota delta [negb]. rewrite Hbody. reflexivity.
Qed.

Lemma SEN66_body_raise (s s1 : SEN66.self) (w w1 : env) (e : exn) :
  SEN66.read_measurement_body s w = (Raise e, s1, w1) -> s1 = s.
Proof.
  unfold SEN66.read_measurement_body. run.
  repeat split_match; intros H; inversion H; subst; reflexivity.
Qed.

Lemma SEN66_read_failure (s s1 : SEN66.self) (w w1 : env) (e : exn) :
  SEN66.initialized s = true ->
  SEN66.read_measurement_body s w = (Raise e, s1, w1) ->
  SEN66.read_measurement true s w
  = (Ok (SEN66.last_valid_reading s), SEN66.set_initialized false s,
     {| tape := tape w1; sent := sent w1; log := log w1 ++ [(Error, "Error reading")] |}).
Proof.
  intros Hinit Hbody.
  assert (s1 = s) as -> by (eapply SEN66_body_raise; eassumption).
  unfold SEN66.read_measurement. cbv beta iota delta [negb]. run.
  rewrite Hinit. cbv beta iota delta [negb]. rewrite Hbody. reflexivity.
Qed.

(** A serial port that fails, at the write or at the read, or that has
    nothing to say: the driver reads no data and stays as it was. *)
Lemma DGS2_read_transport_failure i f (s : DGS2.self) (w : env) :
  DGS2.initialized s = true ->
  (tape w = [] \/ (exists t, tape w = Fault :: t) \/ (exists t, tape w = Done :: Fault :: t)) ->
  exists w', DGS2.read_measurement i f s w = (Ok None, s, w').
Proof.
  intros Hinit Htape.
  destruct s as [name prt baud srl ini con cache]; simpl in Hinit; subst ini.
  destruct w as [tp snt lg]; simpl in Htape.
  unfold DGS2.read_measurement, DGS2.read_measurement_body, DGS2.send_command,
    DGS2.parse_measurement.
  destruct srl; destruct Htape as [E | [(t & E) | (t & E)]]; subst tp;
    cbn; eauto.
Qed.

(** ** Failures during a read *)

(** C3, as stated, fails on the serial driver: with the port failing at the
    write, the read returns no data although the cache holds a record, and
    the driver is left initialized. *)
Lemma serial_failure_returns_no_data :
  DGS2.read_measurement Literal.int_of_str Literal.float_of_str serial_ready (world [Fault])
  = (Ok None, serial_ready,
     {| tape := []; sent := [SerialWrite DGS2.CR];
        log := [(Error, "Error sending command"); (Warning, "Invalid measurement format")] |})
  /\ DGS2.last_valid_reading serial_ready <> None
  /\ DGS2.initialized serial_ready = true.
Proof. split; [ vm_compute; reflexivity | split; [ discriminate | reflexivity ] ]. Qed.

(** C3 (amended).  No driver's read ever raises, whatever the driver's state
    and whatever the devices answer.  In the resistive-gas and particulate
    drivers, an exception inside the read is caught, the driver is marked
    uninitialized and the last-known-good record is returned.  In the
    ASCII-serial driver a failing port surfaces as an empty line: a read on
    an initialized driver returns either no data, leaving the driver and its
    cache as they were, or a fresh record; with the port failing it returns
    no data. *)
Theorem read_failures_are_recovered_locally :
  (forall i f, never_raises (DGS2.read_measurement i f)) /\
  never_raises MCP3208.read_measurement /\
  (forall av, never_raises (MICS6814.read_measurement av)) /\
  (forall av, never_raises (SEN66.read_measurement av)) /\
  (forall s w e s1 w1,
      MICS6814.initialized s = true ->
      MICS6814.read_measurement_body s w = (Raise e, s1, w1) ->
      exists w',
        MICS6814.read_measurement true s w
        = (Ok (MICS6814.last_valid_reading s), MICS6814.set_initialized false s, w')) /\
  (forall s w e s1 w1,
      SEN66.initialized s = true ->
      SEN66.read_measurement_body s w = (Raise e, s1, w1) ->
      exists w',
        SEN66.read_measurement true s w
        = (Ok (SEN66.last_valid_reading s), SEN66.set_initialized false s, w')) /\
  (forall i f s w,
      DGS2.initialized s = true ->
      exists w',
        DGS2.read_measurement i f s w = (Ok None, s, w') \/
        exists d, d <> [] /\
          DGS2.read_measurement i f s w
          = (Ok (Some d), DGS2.set_last_valid_reading (Some d) s, w')) /\
  (forall i f s w,
      DGS2.initialized s = true ->
      (tape w = [] \/ (exists t, tape w = Fault :: t)
       \/ (exists t, tape w = Done :: Fault :: t)) ->
      exists w', DGS2.read_measurement i f s w = (Ok None, s, w')).
Proof.
  split; [ exact DGS2_read_measurement_never_raises | ].
  split; [ exact MCP3208_read_measurement_never_raises | ].
  split; [ exact MICS6814_read_measurement_never_raises | ].
  split; [ exact SEN66_read_measurement_never_raises | ].
  split; [ intros s w e s1 w1 Hi Hb; eexists; eapply MICS6814_read_failure; eassumption | ].
  split; [ intros s w e s1 w1 Hi Hb; eexists; eapply SEN66_read_failure; eassumption | ].
  split; [ exact DGS2_read_initialized | exact DGS2_read_transport_failure ].
Qed.

Lemma read_failures_are_recovered_locally_witness :
  MICS6814.initialized resistive_ready = true /\
  MICS6814.read_measurement_body resistive_ready (world [Fault])
  = (Raise DeviceError, resistive_ready,
     {| tape := []; sent := [ReadAll]; log := [] |}) /\
  exists w',
    MICS6814.read_measurement true resistive_ready (world [Fault])
    = (Ok (Some [("sensor", Str "MICS6814")]),
       MICS6814.set_initialized false resistive_ready, w').
Proof.
  split; [ reflexivity | split; [ reflexivity | ] ].
  apply (proj1 (proj2 (proj2 (proj2 (proj2 read_failures_are_recovered_locally))))
           resistive_ready (world [Fault]) DeviceError resistive_ready
           {| tape := []; sent := [ReadAll]; log := [] |});
    reflexivity.
Defined.

(** ** Construction of the ADC driver *)

(** C4, as stated, fails: a sensitivity of zero, or a negative one, is
    accepted by the constructor. *)
Lemma nonpositive_sensitivity_is_accepted :
  MCP3208.__init__ 0 0 0 1000000 3.282%float 22000 0%float "HCHO" = Ok insensitive
  /\ raised (MCP3208.__init__ 0 0 0 1000000 3.282%float 22000 (-35)%float "HCHO") = false
  /\ raised (HCHOSensor.__init__ 0 0 0 3.282%float 22000 (-35)%float) = false
  /\ raised (NH3Sensor.__init__ 1 0 0 3.282%float 22000 0%float) = false.
Proof. repeat split. Qed.

(** C4 (amended).  Construction of the ADC-analog driver raises exactly when
    the channel index is outside 0..7, whatever the other parameters; a
    sensitivity that is zero or negative is accepted, and is met later by
    the concentration computation, which logs an error and returns 0.0
    without dividing.  Connecting, reading and cleaning up never raise. *)
Theorem construction_raises_on_channel_only :
  (forall channel bus device hz vref rf sens name,
      MCP3208.__init__ channel bus device hz vref rf sens name = Raise ValueError
      <-> (channel < 0 \/ 7 < channel)) /\
  (forall channel bus device hz vref rf sens name,
      raised (MCP3208.__init__ channel bus device hz vref rf sens name) = false
      <-> 0 <= channel <= 7) /\
  (forall iout s w,
      PrimFloat.leb (MCP3208.sensitivity s) 0%float = true ->
      MCP3208.calculate_concentration iout s w
      = (Ok 0%float, s,
         {| tape := tape w; sent := sent w;
            log := log w ++ [(Error, "Invalid sensitivity value")] |})) /\
  never_raises MCP3208.connect /\
  never_raises MCP3208.read_measurement /\
  never_raises MCP3208.cleanup.
Proof.
  split; [ | split; [ | split ] ].
  - intros. unfold MCP3208.__init__.
    destruct (Z.ltb_spec channel 0), (Z.gtb_spec channel 7); simpl;
      split; intros H'; try discriminate; try reflexivity; lia.
  - intros. unfold MCP3208.__init__.
    destruct (Z.ltb_spec channel 0), (Z.gtb_spec channel 7); simpl;
      split; intros H'; try discriminate; try reflexivity; lia.
  - intros iout s w H. unfold MCP3208.calculate_concentration. run.
    rewrite H. reflexivity.
  - repeat split.
    + exact MCP3208_initialize_never_raises.
    + exact MCP3208_read_measurement_never_raises.
    + exact MCP3208_cleanup_never_raises.
Qed.

Lemma construction_raises_on_channel_only_witness :
  PrimFloat.leb (MCP3208.sensitivity insensitive) 0%float = true /\
  MCP3208.calculate_concentration 76321%float insensitive (world [])
  = (Ok 0%float, insensitive,
     {| tape := []; sent := []; log := [(Error, "Invalid sensitivity value")] |}).
Proof.
  split; [ reflexivity | ].
  apply (proj1 (proj2 (proj2 construction_raises_on_channel_only))
           76321%float insensitive (world [])).
  reflexivity.
Defined.

(** ** The ppm conversion of the resistive-gas driver *)

Lemma max_zero_floor (y : num) : lt (max (Int 0) y) (Int 0) = false.
Proof.
  unfold max, gt, lt.
  destruct (compare y (Int 0)) as [[]|] eqn:E; try rewrite E; reflexivity.
Qed.

Lemma calculate_ppm_floor (current : float) (baseline_value : option float)
    (gas_type : string) (v : num) :
  MICS6814.calculate_ppm current baseline_value gas_type = Ok v ->
  lt v (Int 0) = false.
Proof.
  unfold MICS6814.calculate_ppm, MICS6814.calculate_ppm_with.
  destruct baseline_value as [b|]; [ | intros [= <-]; reflexivity ].
  destruct (_ || _); [ intros [= <-]; reflexivity | ].
  repeat (destruct (String.eqb gas_type _);
          [ destruct (float_truediv _ _); simpl;
            [ intros [= <-]; apply max_zero_floor | discriminate ] | ]).
  intros [= <-]; reflexivity.
Qed.

Lemma calculate_ppm_positive (current baseline_value : float) :
  PrimFloat.ltb 0%float current = true ->
  PrimFloat.ltb 0%float baseline_value = true ->
  MICS6814.calculate_ppm current (Some baseline_value) "oxidising"
  = Ok (max (Int 0)
          (Flt (PrimFloat.mul 0.1%float
                  (PrimFloat.sub (PrimFloat.div baseline_value current) 1%float)))) /\
  MICS6814.calculate_ppm current (Some baseline_value) "reducing"
  = Ok (max (Int 0)
          (Flt (PrimFloat.mul 4%float
                  (PrimFloat.sub (PrimFloat.div current baseline_value) 1%float)))) /\
  MICS6814.calculate_ppm current (Some baseline_value) "nh3"
  = Ok (max (Int 0)
          (Flt (PrimFloat.mul 5%float
                  (PrimFloat.sub (PrimFloat.div current baseline_value) 1%float)))).
Proof.
  intros Hc Hb. apply ltb_zero_leb in Hc, Hb.
  unfold MICS6814.calculate_ppm, MICS6814.calculate_ppm_with.
  rewrite Hc, Hb. simpl.
  rewrite !float_truediv_positive by assumption. auto.
Qed.

(** C10.  The ppm conversion returns for every input, so that it never
    divides by zero; with no baseline, a current or a baseline that is
    zero or negative, or a gas type other than the three it knows, it
    returns 0.0 whatever a division would do: it does not divide. *)
Theorem calculate_ppm_never_divides_by_zero :
  (forall current baseline_value gas_type,
      exists v, MICS6814.calculate_ppm current baseline_value gas_type = Ok v) /\
  (forall divide current gas_type,
      MICS6814.calculate_ppm_with divide current None gas_type = Ok (Flt 0)) /\
  (forall divide current baseline_value gas_type,
      PrimFloat.leb current 0%float = true ->
      MICS6814.calculate_ppm_with divide current baseline_value gas_type = Ok (Flt 0)) /\
  (forall divide current baseline_value gas_type,
      PrimFloat.leb baseline_value 0%float = true ->
      MICS6814.calculate_ppm_with divide current (Some baseline_value) gas_type
      = Ok (Flt 0)) /\
  (forall divide current baseline_value gas_type,
      gas_type <> "oxidising" -> gas_type <> "reducing" -> gas_type <> "nh3" ->
      MICS6814.calculate_ppm_with divide current baseline_value gas_type = Ok (Flt 0)).
Proof.
  split; [ | split; [ | split; [ | split ] ] ].
  - intros current [b|] gas_type; unfold MICS6814.calculate_ppm,
      MICS6814.calculate_ppm_with; [ | eauto ].
    destruct (PrimFloat.leb current 0) eqn:Hc; [ simpl; eauto | ].
    destruct (PrimFloat.leb b 0) eqn:Hb; [ simpl; eauto | ]. simpl.
    rewrite !float_truediv_positive by assumption.
    repeat (destruct (String.eqb gas_type _); [ simpl; eauto | ]). eauto.
  - reflexivity.
  - intros divide current [b|] gas_type H; unfold MICS6814.calculate_ppm_with;
      [ rewrite H | ]; reflexivity.
  - intros divide current b gas_type H. unfold MICS6814.calculate_ppm_with.
    rewrite H, orb_true_r. reflexivity.
  - intros divide current [b|] gas_type H1 H2 H3; unfold MICS6814.calculate_ppm_with;
      [ | reflexivity ].
    apply String.eqb_neq in H1, H2, H3. rewrite H1, H2, H3.
    destruct (_ || _); reflexivity.
Qed.

Lemma calculate_ppm_never_divides_by_zero_witness :
  PrimFloat.leb 0%float 0%float = true /\
  MICS6814.calculate_ppm_with no_division 0%float (Some 100%float) "oxidising"
  = Ok (Flt 0).
Proof.
  split; [ reflexivity | ].
  apply (proj1 (proj2 (proj2 calculate_ppm_never_divides_by_zero))
           no_division 0%float (Some 100%float) "oxidising").
  reflexivity.
Defined.

(** C5, as stated, fails at its second example: on the reading 220 against
    the baseline 200 the driver returns 0.40000000000000036, which is not
    the float 0.4. *)
Lemma ppm_reducing_is_not_exactly_0_4 :
  MICS6814.calculate_ppm 220%float (Some 200%float) "reducing"
  = Ok (Flt 0.40000000000000036%float)
  /\ eq (Flt 0.40000000000000036%float) (Flt 0.4%float) = false
  /\ PrimFloat.eqb 0.40000000000000036%float 0.4%float = false.
Proof. repeat split. Qed.

(** C5 (amended).  For a positive current and a positive baseline the ppm
    conversion is, in binary64 arithmetic, max(0, 0.1 * (baseline/current - 1))
    on the oxidising channel, max(0, 4.0 * (current/baseline - 1)) on the
    reducing channel and max(0, 5.0 * (current/baseline - 1)) on the ammonia
    channel; no result is below zero.  With the baseline 100, 200, 150 and
    the reading 90, 220, 150 it gives 0.1 * (100/90 - 1), within 0.0001 of
    0.0111, on the oxidising channel, 4.0 * (220/200 - 1), which is
    0.40000000000000036 and so within rounding of 0.4, on the reducing
    channel and 0 on the ammonia channel. *)
Theorem calculate_ppm_formulas :
  (forall current baseline_value,
      PrimFloat.ltb 0%float current = true ->
      PrimFloat.ltb 0%float baseline_value = true ->
      MICS6814.calculate_ppm current (Some baseline_value) "oxidising"
      = Ok (max (Int 0)
              (Flt (PrimFloat.mul 0.1%float
                      (PrimFloat.sub (PrimFloat.div baseline_value current) 1%float)))) /\
      MICS6814.calculate_ppm current (Some baseline_value) "reducing"
      = Ok (max (Int 0)
              (Flt (PrimFloat.mul 4%float
                      (PrimFloat.sub (PrimFloat.div current baseline_value) 1%float)))) /\
      MICS6814.calculate_ppm current (Some baseline_value) "nh3"
      = Ok (max (Int 0)
              (Flt (PrimFloat.mul 5%float
                      (PrimFloat.sub (PrimFloat.div current baseline_value) 1%float))))) /\
  (forall current baseline_value gas_type v,
      MICS6814.calculate_ppm current baseline_value gas_type = Ok v ->
      lt v (Int 0) = false) /\
  (exists no2 co,
      MICS6814.calculate_ppm 90%float (Some 100%float) "oxidising" = Ok (Flt no2) /\
      no2 = PrimFloat.mul 0.1%float (PrimFloat.sub (PrimFloat.div 100 90) 1)%float /\
      near no2 0.0111%float 0.0001%float = true /\
      MICS6814.calculate_ppm 220%float (Some 200%float) "reducing" = Ok (Flt co) /\
      co = PrimFloat.mul 4%float (PrimFloat.sub (PrimFloat.div 220 200) 1)%float /\
      co = 0.40000000000000036%float /\
      near co 0.4%float 1e-15%float = true /\
      MICS6814.calculate_ppm 150%float (Some 150%float) "nh3" = Ok (Int 0)).
Proof.
  split; [ exact calculate_ppm_positive | ].
  split; [ exact calculate_ppm_floor | ].
  eexists _, _. repeat split.
Qed.

Lemma calculate_ppm_formulas_witness :
  PrimFloat.ltb 0%float 220%float = true /\
  PrimFloat.ltb 0%float 200%float = true /\
  MICS6814.calculate_ppm 220%float (Some 200%float) "reducing"
  = Ok (max (Int 0)
          (Flt (PrimFloat.mul 4%float
                  (PrimFloat.sub (PrimFloat.div 220%float 200%float) 1%float)))).
Proof.
  split; [ reflexivity | split; [ reflexivity | ] ].
  apply (proj1 calculate_ppm_formulas 220%float 200%float); reflexivity.
Defined.

(** ** Validation *)

Lemma getitem_lookup (d : dict) (k : string) (v : value) :
  lookup k d = Some v -> getitem d k = Ok v.
Proof. unfold getitem. now intros ->. Qed.

Lemma DGS2_is_valid_reading_spec (d : dict) (ppb ppm t h : num) :
  lookup "gas_ppb" d = Some (Num ppb) ->
  lookup "gas_ppm" d = Some (Num ppm) ->
  lookup "temperature" d = Some (Num t) ->
  lookup "relative_humidity" d = Some (Num h) ->
  DGS2.is_valid_reading (Some d)
  = Ok (nonnegative ppb && nonnegative ppm && within (-40) 85 t && within 0 100 h).
Proof.
  intros H1 H2 H3 H4. unfold DGS2.is_valid_reading.
  destruct d as [|item d]; [ discriminate | ].
  rewrite (getitem_lookup _ _ _ H1), (getitem_lookup _ _ _ H2),
    (getitem_lookup _ _ _ H3), (getitem_lookup _ _ _ H4).
  unfold nonnegative, within, value_lt, value_gt. simpl.
  destruct (lt ppb (Int 0)); simpl; [ reflexivity | ].
  destruct (lt ppm (Int 0)); simpl; [ reflexivity | ].
  destruct (lt t (Int (-40))); simpl; [ reflexivity | ].
  destruct (gt t (Int 85)); simpl; [ reflexivity | ].
  destruct (lt h (Int 0)); simpl; [ reflexivity | ].
  destruct (gt h (Int 100)); reflexivity.
Qed.

Lemma SEN66_is_valid_reading_spec (d : dict) (pm1 pm25 pm4 pm10 voc nox co2 t h : num) :
  lookup "pm1.0" d = Some (Num pm1) ->
  lookup "pm2.5" d = Some (Num pm25) ->
  lookup "pm4.0" d = Some (Num pm4) ->
  lookup "pm10" d = Some (Num pm10) ->
  lookup "VOC_Index" d = Some (Num voc) ->
  lookup "NOx_Index" d = Some (Num nox) ->
  lookup "CO2" d = Some (Num co2) ->
  lookup "temperature" d = Some (Num t) ->
  lookup "humidity" d = Some (Num h) ->
  SEN66.is_valid_reading (Some d)
  = Ok (nonnegative pm1 && nonnegative pm25 && nonnegative pm4 && nonnegative pm10
        && nonnegative voc && nonnegative nox && nonnegative co2
        && within (-40) 85 t && within 0 100 h).
Proof.
  intros H1 H2 H3 H4 H5 H6 H7 H8 H9. unfold SEN66.is_valid_reading.
  destruct d as [|item d]; [ discriminate | ].
  unfold SEN66.or_negative. simpl fold_left.
  rewrite (getitem_lookup _ _ _ H1), (getitem_lookup _ _ _ H2),
    (getitem_lookup _ _ _ H3), (getitem_lookup _ _ _ H4), (getitem_lookup _ _ _ H5),
    (getitem_lookup _ _ _ H6), (getitem_lookup _ _ _ H7), (getitem_lookup _ _ _ H8),
    (getitem_lookup _ _ _ H9).
  unfold nonnegative, within, value_lt, value_gt. simpl.
  destruct (lt pm1 (Int 0)); simpl; [ reflexivity | ].
  destruct (lt pm25 (Int 0)); simpl; [ reflexivity | ].
  destruct (lt pm4 (Int 0)); simpl; [ reflexivity | ].
  destruct (lt pm10 (Int 0)); simpl; [ reflexivity | ].
  destruct (lt voc (Int 0)); simpl; [ reflexivity | ].
  destruct (lt nox (Int 0)); simpl; [ reflexivity | ].
  destruct (lt co2 (Int 0)); simpl; [ reflexivity | ].
  destruct (lt t (Int (-40))); simpl; [ reflexivity | ].
  destruct (gt t (Int 85)); simpl; [ reflexivity | ].
  destruct (lt h (Int 0)); simpl; [ reflexivity | ].
  destruct (gt h (Int 100)); reflexivity.
Qed.

Lemma MCP3208_is_valid_reading_spec (s : MCP3208.self) (d : dict) (c : num) :
  lookup "concentration" d = Some (Num c) ->
  MCP3208.is_valid_reading s (Some d)
  = Ok (nonnegative c &&
        negb ((String.eqb (MCP3208.sensor_name s) "HCHO"
               || String.eqb (MCP3208.sensor_name s) "NH3") && gt c (Int 100))).
Proof.
  intros H. unfold MCP3208.is_valid_reading.
  destruct d as [|item d]; [ discriminate | ].
  rewrite (getitem_lookup _ _ _ H).
  unfold nonnegative, value_lt, value_gt. simpl.
  destruct (lt c (Int 0)); simpl; [ reflexivity | ].
  destruct (String.eqb (MCP3208.sensor_name s) "HCHO"); simpl.
  - destruct (gt c (Int 100)); simpl; [ reflexivity | ].
    destruct (String.eqb (MCP3208.sensor_name s) "NH3"); reflexivity.
  - destruct (String.eqb (MCP3208.sensor_name s) "NH3"); simpl; [ | reflexivity ].
    destruct (gt c (Int 100)); reflexivity.
Qed.

(** C7.  On a record that has its fields, validation answers yes exactly
    when no concentration, ppm, ppb, particulate or index field is below
    zero, the temperature is neither below -40 nor above 85 and the humidity
    neither below 0 nor above 100.  So a negative field is rejected, the
    value 0 is accepted, and so are the temperatures -40 and 85 and the
    humidities 0 and 100. *)
Theorem validate_accepts_bounds_rejects_negative :
  (forall d ppb ppm t h,
      lookup "gas_ppb" d = Some (Num ppb) ->
      lookup "gas_ppm" d = Some (Num ppm) ->
      lookup "temperature" d = Some (Num t) ->
      lookup "relative_humidity" d = Some (Num h) ->
      DGS2.is_valid_reading (Some d)
      = Ok (nonnegative ppb && nonnegative ppm && within (-40) 85 t && within 0 100 h)) /\
  (forall d pm1 pm25 pm4 pm10 voc nox co2 t h,
      lookup "pm1.0" d = Some (Num pm1) ->
      lookup "pm2.5" d = Some (Num pm25) ->
      lookup "pm4.0" d = Some (Num pm4) ->
      lookup "pm10" d = Some (Num pm10) ->
      lookup "VOC_Index" d = Some (Num voc) ->
      lookup "NOx_Index" d = Some (Num nox) ->
      lookup "CO2" d = Some (Num co2) ->
      lookup "temperature" d = Some (Num t) ->
      lookup "humidity" d = Some (Num h) ->
      SEN66.is_valid_reading (Some d)
      = Ok (nonnegative pm1 && nonnegative pm25 && nonnegative pm4 && nonnegative pm10
            && nonnegative voc && nonnegative nox && nonnegative co2
            && within (-40) 85 t && within 0 100 h)) /\
  (forall s d c,
      lookup "concentration" d = Some (Num c) ->
      MCP3208.is_valid_reading s (Some d)
      = Ok (nonnegative c &&
            negb ((String.eqb (MCP3208.sensor_name s) "HCHO"
                   || String.eqb (MCP3208.sensor_name s) "NH3") && gt c (Int 100)))) /\
  (forall x, lt x (Int 0) = true -> nonnegative x = false) /\
  (forall lo hi x, lt x (Int lo) = true \/ gt x (Int hi) = true -> within lo hi x = false) /\
  nonnegative (Int 0) = true /\ nonnegative (Flt 0) = true /\
  within (-40) 85 (Flt (-40)) = true /\ within (-40) 85 (Flt 85) = true /\
  within 0 100 (Flt 0) = true /\ within 0 100 (Flt 100) = true /\
  within 0 100 (Int 0) = true /\
  DGS2.is_valid_reading (Some (DGS2_record "CO" 0 (Flt (-40)) (Flt 0) 0 0 0 (Flt 0)))
  = Ok true /\
  DGS2.is_valid_reading (Some (DGS2_record "CO" 0 (Flt 85) (Flt 100) 0 0 0 (Int 0)))
  = Ok true /\
  SEN66.is_valid_reading
    (Some (SEN66_record "SEN66" (Flt (-40)) (Flt 0)
             (Flt 0) (Flt 0) (Flt 0) (Flt 0) (Flt 0) (Flt 0) (Flt 0)))
  = Ok true /\
  SEN66.is_valid_reading
    (Some (SEN66_record "SEN66" (Flt 85) (Flt 100)
             (Flt 0) (Flt 0) (Flt 0) (Flt 0) (Flt 0) (Flt 0) (Flt 0)))
  = Ok true.
Proof.
  split; [ exact DGS2_is_valid_reading_spec | ].
  split; [ exact SEN66_is_valid_reading_spec | ].
  split; [ exact MCP3208_is_valid_reading_spec | ].
  split; [ intros x H; unfold nonnegative; now rewrite H | ].
  split; [ intros lo hi x [H|H]; unfold within; rewrite H;
           [ reflexivity | apply andb_false_r ] | ].
  repeat split.
Qed.

Lemma validate_accepts_bounds_rejects_negative_witness :
  lookup "gas_ppb" (DGS2_record "CO" (-1) (Flt 20) (Flt 50) 0 0 0 (Flt (-0.001)))
  = Some (Num (Int (-1))) /\
  DGS2.is_valid_reading
    (Some (DGS2_record "CO" (-1) (Flt 20) (Flt 50) 0 0 0 (Flt (-0.001))))
  = Ok false.
Proof.
  split; [ reflexivity | ].
  exact (proj1 validate_accepts_bounds_rejects_negative
           (DGS2_record "CO" (-1) (Flt 20) (Flt 50) 0 0 0 (Flt (-0.001)))
           (Int (-1)) (Flt (-0.001)) (Flt 20) (Flt 50)
           eq_refl eq_refl eq_refl eq_refl).
Defined.

(** ** Parsing and sanitization in the serial driver *)

Lemma truediv_100 (t : float) :
  truediv (Flt t) (Int 100) = Ok (Flt (PrimFloat.div t 100%float)).
Proof. reflexivity. Qed.

Lemma DGS2_parse_measurement_record i f (line : string) (s : DGS2.self) (w : env)
    (ppb g tt hh : Z) (t h ppm : float) :
  (7 <= List.length (split "," line))%nat ->
  DGS2.int_field i (split "," line) 1 = Ok ppb ->
  DGS2.float_field f (split "," line) 2 = Ok t ->
  DGS2.float_field f (split "," line) 3 = Ok h ->
  DGS2.int_field i (split "," line) 4 = Ok g ->
  DGS2.int_field i (split "," line) 5 = Ok tt ->
  DGS2.int_field i (split "," line) 6 = Ok hh ->
  int_truediv ppb 1000 = Ok ppm ->
  DGS2.parse_measurement i f line s w
  = (Ok (Some (DGS2_record (DGS2.sensor_name s) ppb
                 (Flt (PrimFloat.div t 100%float)) (Flt (PrimFloat.div h 100%float))
                 g tt hh (Flt ppm))), s, w).
Proof.
  intros Hlen H1 H2 H3 H4 H5 H6 H7.
  unfold DGS2.parse_measurement. cbv zeta.
  apply Nat.leb_le in Hlen. rewrite Hlen. run.
  rewrite H1, H2, H3, H4, H5, H6. cbv beta iota delta [rbind].
  rewrite !truediv_100. unfold truediv. rewrite H7. reflexivity.
Qed.

Lemma DGS2_parse_measurement_short i f (line : string) (s : DGS2.self) (w : env) :
  (List.length (split "," line) < 7)%nat ->
  DGS2.parse_measurement i f line s w
  = (Ok None, s,
     {| tape := tape w; sent := sent w;
        log := log w ++ [(Warning, "Invalid measurement format")] |}).
Proof.
  intros Hlen. unfold DGS2.parse_measurement. cbv zeta.
  apply Nat.leb_gt in Hlen. rewrite Hlen. reflexivity.
Qed.

Lemma DGS2_parse_measurement_not_numeric i f (line : string) (s : DGS2.self) (w : env) :
  (raised (DGS2.int_field i (split "," line) 1) = true \/
   raised (DGS2.float_field f (split "," line) 2) = true \/
   raised (DGS2.float_field f (split "," line) 3) = true \/
   raised (DGS2.int_field i (split "," line) 4) = true \/
   raised (DGS2.int_field i (split "," line) 5) = true \/
   raised (DGS2.int_field i (split "," line) 6) = true) ->
  exists w', DGS2.parse_measurement i f line s w = (Ok None, s, w').
Proof.
  intros Hbad.
  destruct (DGS2_parse_measurement_keeps_self i f line s w) as ([d|] & w' & E);
    [ | eauto ].
  exfalso. apply DGS2_parse_measurement_inv in E.
  destruct E as (_ & _ & _ & ppb & t & h & g & tt & hh & ppm & E).
  destruct E as (E1 & E2 & E3 & E4 & E5 & E6 & _).
  rewrite E1, E4, E5, E6 in Hbad.
  destruct (DGS2.float_field f (split "," line) 2); [ | discriminate ].
  destruct (DGS2.float_field f (split "," line) 3); [ | discriminate ].
  simpl in Hbad. intuition discriminate.
Qed.

(** C6, as stated, fails on a ppb field too large for a float: the line
    has seven fields, each converts, and the parse still returns none,
    because the quotient ppb / 1000 raises. *)
Lemma huge_ppb_is_numeric_but_not_parsed :
  List.length (split "," huge_ppb_line) = 7%nat /\
  DGS2.int_field Literal.int_of_str (split "," huge_ppb_line) 1 = Ok (10 ^ 400) /\
  DGS2.float_field Literal.float_of_str (split "," huge_ppb_line) 2 = Ok 2150%float /\
  DGS2.float_field Literal.float_of_str (split "," huge_ppb_line) 3 = Ok 4000%float /\
  DGS2.int_field Literal.int_of_str (split "," huge_ppb_line) 4 = Ok 100 /\
  DGS2.int_field Literal.int_of_str (split "," huge_ppb_line) 5 = Ok 200 /\
  DGS2.int_field Literal.int_of_str (split "," huge_ppb_line) 6 = Ok 300 /\
  int_truediv (10 ^ 400) 1000 = Raise OverflowError /\
  DGS2.parse_measurement Literal.int_of_str Literal.float_of_str huge_ppb_line
    serial_ready (world [])
  = (Ok None, serial_ready,
     {| tape := []; sent := []; log := [(Error, "Error parsing measurement")] |}).
Proof. repeat split; vm_compute; reflexivity. Qed.

(** C6 (amended).  The parse splits the line on commas.  When there are at
    least seven fields, fields 1, 4, 5 and 6 convert with int(), fields 2
    and 3 convert with float(), and the quotient of field 1 by 1000 is
    within the range of a float, it returns the record with gas_ppb the
    int of field 1, temperature and humidity the floats of fields 2 and 3
    divided by 100, the three ADC counts the ints of fields 4 to 6, and
    gas_ppm the float gas_ppb / 1000.  A line of fewer than seven fields,
    or with a field that does not convert, yields none; the parse never
    raises and leaves the driver as it was. *)
Theorem parse_measurement_fields :
  (forall i f line s w ppb g tt hh t h ppm,
      (7 <= List.length (split "," line))%nat ->
      DGS2.int_field i (split "," line) 1 = Ok ppb ->
      DGS2.float_field f (split "," line) 2 = Ok t ->
      DGS2.float_field f (split "," line) 3 = Ok h ->
      DGS2.int_field i (split "," line) 4 = Ok g ->
      DGS2.int_field i (split "," line) 5 = Ok tt ->
      DGS2.int_field i (split "," line) 6 = Ok hh ->
      int_truediv ppb 1000 = Ok ppm ->
      DGS2.parse_measurement i f line s w
      = (Ok (Some (DGS2_record (DGS2.sensor_name s) ppb
                     (Flt (PrimFloat.div t 100%float)) (Flt (PrimFloat.div h 100%float))
                     g tt hh (Flt ppm))), s, w)) /\
  (forall i f line s w,
      (List.length (split "," line) < 7)%nat ->
      exists w', DGS2.parse_measurement i f line s w = (Ok None, s, w')) /\
  (forall i f line s w,
      (raised (DGS2.int_field i (split "," line) 1) = true \/
       raised (DGS2.float_field f (split "," line) 2) = true \/
       raised (DGS2.float_field f (split "," line) 3) = true \/
       raised (DGS2.int_field i (split "," line) 4) = true \/
       raised (DGS2.int_field i (split "," line) 5) = true \/
       raised (DGS2.int_field i (split "," line) 6) = true) ->
      exists w', DGS2.parse_measurement i f line s w = (Ok None, s, w')) /\
  (forall i f line, keeps_self (DGS2.parse_measurement i f line)).
Proof.
  split; [ exact DGS2_parse_measurement_record | ].
  split; [ intros; eexists; apply DGS2_parse_measurement_short; assumption | ].
  split; [ exact DGS2_parse_measurement_not_numeric
         | exact DGS2_parse_measurement_keeps_self ].
Qed.

Lemma parse_measurement_fields_witness :
  (7 <= List.length (split "," sample_line))%nat /\
  DGS2.parse_measurement Literal.int_of_str Literal.float_of_str sample_line
    serial_ready (world [])
  = (Ok (Some (DGS2_record "CO" 5000 (Flt 21.5) (Flt 40) 100 200 300 (Flt 5))),
     serial_ready, world []).
Proof.
  split; [ simpl; lia | ].
  apply (proj1 parse_measurement_fields Literal.int_of_str Literal.float_of_str
           sample_line serial_ready (world []) 5000 100 200 300
           2150%float 4000%float 5%float);
    [ simpl; lia | reflexivity .. ].
Defined.

Lemma sanitized_key (item : string * value) : fst (sanitized item) = fst item.
Proof.
  destruct item as [k v]. unfold sanitized.
  destruct (contains "temp" (lower k)); reflexivity.
Qed.

Lemma setitem_middle (k : string) (v v0 : value) (pre post : dict) :
  ~ In k (map fst pre) ->
  setitem k v (pre ++ (k, v0) :: post)%list = (pre ++ (k, v) :: post)%list.
Proof.
  induction pre as [|[k' v'] pre IH]; simpl; intros Hk.
  - now rewrite String.eqb_refl.
  - destruct (String.eqb_spec k k') as [->|_]; [ tauto | ].
    rewrite IH; tauto.
Qed.

(** The loop, turn by turn: the entries before the current one are already
    sanitized, the others are still as parsed. *)
Lemma DGS2_sanitize_loop_from (items : list (string * value)) :
  forall (pre : dict) (s : DGS2.self) (w : env),
    NoDup (map fst (pre ++ items)%list) ->
    exists w',
      DGS2.sanitize_loop items (map sanitized pre ++ items)%list s w
      = (Ok (map sanitized (pre ++ items)%list), s, w')
      /\ tape w' = tape w /\ sent w' = sent w.
Proof.
  induction items as [|[key v] rest IH]; intros pre s w Hnd.
  - simpl. run. rewrite !app_nil_r. eauto.
  - assert (Hkey : ~ In key (map fst (map sanitized pre))).
    { rewrite map_map. rewrite (map_ext _ fst sanitized_key).
      rewrite map_app in Hnd. apply NoDup_remove_2 in Hnd.
      intros Hin. apply Hnd. apply in_or_app. now left. }
    assert (Hnext : forall w1, exists w',
               DGS2.sanitize_loop rest
                 (map sanitized pre ++ sanitized (key, v) :: rest)%list s w1
               = (Ok (map sanitized (pre ++ (key, v) :: rest)%list), s, w')
               /\ tape w' = tape w1 /\ sent w' = sent w1).
    { intros w1.
      replace (map sanitized pre ++ sanitized (key, v) :: rest)%list
        with (map sanitized (pre ++ [(key, v)]) ++ rest)%list
        by (rewrite map_app, <- app_assoc; reflexivity).
      replace (pre ++ (key, v) :: rest)%list with ((pre ++ [(key, v)]) ++ rest)%list
        by (rewrite <- app_assoc; reflexivity).
      apply IH. now rewrite <- app_assoc. }
    simpl DGS2.sanitize_loop. unfold DGS2.sanitize_item, sanitized in *. run.
    destruct v as [str|n|sub]; simpl zero_if_negative in *;
      try (destruct (contains "temp" (lower key)); apply Hnext).
    destruct (contains "temp" (lower key)); [ apply Hnext | ].
    destruct (lt n (Int 0)); [ | apply Hnext ].
    rewrite setitem_middle by assumption.
    destruct (Hnext {| tape := tape w; sent := sent w;
                       log := log w ++ [(Warning, "Invalid reading, replacing with 0")] |})
      as (w' & E & Ht & Hs).
    exists w'. auto.
Qed.

Lemma DGS2_sanitize_loop_spec (d : dict) (s : DGS2.self) (w : env) :
  NoDup (map fst d) ->
  exists w',
    DGS2.sanitize_loop d d s w = (Ok (map sanitized d), s, w')
    /\ tape w' = tape w /\ sent w' = sent w.
Proof. intros Hnd. exact (DGS2_sanitize_loop_from d [] s w Hnd). Qed.

Lemma DGS2_record_keys name ppb t h g tt hh ppm :
  NoDup (map fst (DGS2_record name ppb t h g tt hh ppm)).
Proof.
  simpl. repeat (constructor; [ simpl; intuition discriminate | ]). constructor.
Qed.

Lemma DGS2_record_sanitized name ppb t h g tt hh ppm :
  map sanitized (DGS2_record name ppb t h g tt hh ppm)
  = [ ("sensor", Str name);
      ("gas_ppb", zero_if_negative (Num (Int ppb)));
      ("temperature", Num t);
      ("relative_humidity", zero_if_negative (Num h));
      ("adc_g", zero_if_negative (Num (Int g)));
      ("adc_t", zero_if_negative (Num (Int tt)));
      ("adc_h", zero_if_negative (Num (Int hh)));
      ("gas_ppm", zero_if_negative (Num ppm)) ].
Proof. reflexivity. Qed.

(** C8.  On every record that the parse returns, the loop of the read
    leaves the temperature as it is, negative or not, replaces every other
    negative number by 0 and changes nothing else; the read returns, and
    caches, the record so sanitized. *)
Theorem sanitization_spares_temperature :
  (forall i f line s w d s1 w1,
      DGS2.parse_measurement i f line s w = (Ok (Some d), s1, w1) ->
      exists d' w2,
        DGS2.sanitize_loop d d s1 w1 = (Ok d', s1, w2) /\
        map fst d' = map fst d /\
        lookup "temperature" d' = lookup "temperature" d /\
        (forall key, key <> "temperature" ->
                     lookup key d' = option_map zero_if_negative (lookup key d))) /\
  (forall i f s w response w1 d w2 d' w3,
      DGS2.initialized s = true ->
      DGS2.send_command "" s w = (Ok response, s, w1) ->
      DGS2.parse_measurement i f response s w1 = (Ok (Some d), s, w2) ->
      DGS2.sanitize_loop d d s w2 = (Ok d', s, w3) ->
      DGS2.read_measurement i f s w
      = (Ok (Some d'), DGS2.set_last_valid_reading (Some d') s, w3)).
Proof.
  split.
  - intros i f line s w d s1 w1 Hparse.
    apply DGS2_parse_measurement_inv in Hparse.
    destruct Hparse as (-> & -> & _ & ppb & t & h & g & tt & hh & ppm & Hparse).
    destruct Hparse as (_ & _ & _ & _ & _ & _ & _ & ->).
    destruct (DGS2_sanitize_loop_spec (DGS2_record (DGS2.sensor_name s) ppb t h g tt hh ppm)
                s w (DGS2_record_keys _ _ _ _ _ _ _ _)) as (w2 & E & _ & _).
    eexists _, w2. split; [ exact E | ].
    rewrite DGS2_record_sanitized.
    split; [ reflexivity | split; [ reflexivity | ] ].
    intros key Hkey. apply String.eqb_neq in Hkey.
    unfold DGS2_record, lookup.
    repeat match goal with
           | |- context [String.eqb key ?k] =>
               first [ rewrite Hkey | destruct (String.eqb key k); [ reflexivity | ] ]
           end.
    reflexivity.
  - intros i f s w response w1 d w2 d' w3 Hinit Hsend Hparse Hloop.
    unfold DGS2.read_measurement, DGS2.read_measurement_body. run.
    rewrite Hinit. cbv beta iota delta [negb].
    rewrite Hsend, Hparse.
    apply DGS2_parse_measurement_inv in Hparse.
    destruct Hparse as (_ & _ & _ & ppb & t & h & g & tt & hh & ppm & Hparse).
    destruct Hparse as (_ & _ & _ & _ & _ & _ & _ & ->).
    unfold DGS2_record in *. rewrite Hloop. reflexivity.
Qed.

Lemma sanitization_spares_temperature_witness :
  DGS2.parse_measurement Literal.int_of_str Literal.float_of_str
    "123456,-5,-2150,-4000,-1,2,3" serial_ready (world [])
  = (Ok (Some (DGS2_record "CO" (-5) (Flt (-21.5)) (Flt (-40)) (-1) 2 3 (Flt (-0.005)))),
     serial_ready, world []) /\
  exists d' w2,
    DGS2.sanitize_loop
      (DGS2_record "CO" (-5) (Flt (-21.5)) (Flt (-40)) (-1) 2 3 (Flt (-0.005)))
      (DGS2_record "CO" (-5) (Flt (-21.5)) (Flt (-40)) (-1) 2 3 (Flt (-0.005)))
      serial_ready (world [])
    = (Ok d', serial_ready, w2) /\
    map fst d'
    = map fst (DGS2_record "CO" (-5) (Flt (-21.5)) (Flt (-40)) (-1) 2 3 (Flt (-0.005))) /\
    lookup "temperature" d'
    = lookup "temperature"
        (DGS2_record "CO" (-5) (Flt (-21.5)) (Flt (-40)) (-1) 2 3 (Flt (-0.005))) /\
    (forall key, key <> "temperature" ->
       lookup key d'
       = option_map zero_if_negative
           (lookup key
              (DGS2_record "CO" (-5) (Flt (-21.5)) (Flt (-40)) (-1) 2 3 (Flt (-0.005))))).
Proof.
  split; [ reflexivity | ].
  apply (proj1 sanitization_spares_temperature Literal.int_of_str Literal.float_of_str
           "123456,-5,-2150,-4000,-1,2,3" serial_ready (world [])).
  reflexivity.
Defined.

(** ** The cache and validation *)

Section Steps.

Context {S : Type}.
Variable R : S -> S -> Prop.
Hypothesis R_refl : forall s, R s s.
Hypothesis R_trans : forall s1 s2 s3, R s1 s2 -> R s2 s3 -> R s1 s3.

Lemma steps_ret {A} (a : A) : steps R (@ret S A a).
Proof. intros s w. apply R_refl. Qed.

Lemma steps_raise {A} (e : exn) : steps R (@raise S A e).
Proof. intros s w. apply R_refl. Qed.

Lemma steps_lift {A} (r : res A) : steps R (@lift S A r).
Proof. intros s w. apply R_refl. Qed.

Lemma steps_gets {A} (f : S -> A) : steps R (gets f).
Proof. intros s w. apply R_refl. Qed.

Lemma steps_ask (q : request) : steps R (@ask S q).
Proof. intros s w. unfold ask. destruct (tape w) as [|[] t]; apply R_refl. Qed.

Lemma steps_sleep (n : num) : steps R (@sleep S n).
Proof. intros s w. apply R_refl. Qed.

Lemma steps_log (l : level) (msg : string) : steps R (@log_msg S l msg).
Proof. intros s w. apply R_refl. Qed.

Lemma steps_modify (f : S -> S) : (forall s, R s (f s)) -> steps R (modify f).
Proof. intros H s w. apply H. Qed.

Lemma steps_bind {A B} (m : M S A) (k : A -> M S B) :
  steps R m -> (forall a, steps R (k a)) -> steps R (bind m k).
Proof.
  intros Hm Hk s w. unfold bind. specialize (Hm s w).
  destruct (m s w) as [[[a|e] s1] w1]; simpl in *; [ | exact Hm ].
  eapply R_trans; [ exact Hm | apply Hk ].
Qed.

(** What follows a pure computation may rely on its result. *)
Lemma steps_bind_lift {A B} (r : res A) (k : A -> M S B) :
  (forall a, r = Ok a -> steps R (k a)) -> steps R (bind (lift r) k).
Proof.
  intros Hk s w. unfold bind, lift.
  destruct r as [a|e]; simpl; [ apply Hk; reflexivity | apply R_refl ].
Qed.

Lemma steps_call (q : request) : steps R (@call S q).
Proof.
  unfold call. apply steps_bind; [ apply steps_ask | ].
  intros []; first [ apply steps_ret | apply steps_raise ].
Qed.

Lemma steps_try {A} (body : M S A) (handler : exn -> M S A) :
  steps R body -> (forall e, steps R (handler e)) -> steps R (try_except body handler).
Proof.
  intros Hb Hh s w. unfold try_except. specialize (Hb s w).
  destruct (body s w) as [[[a|e] s1] w1]; simpl in *; [ exact Hb | ].
  eapply R_trans; [ exact Hb | apply Hh ].
Qed.

Lemma steps_if {A} (c : bool) (m1 m2 : M S A) :
  steps R m1 -> steps R m2 -> steps R (if c then m1 else m2).
Proof. destruct c; auto. Qed.

End Steps.

Ltac steps_step :=
  first
    [ apply steps_ret; assumption
    | apply steps_raise; assumption
    | apply steps_lift; assumption
    | apply steps_gets; assumption
    | apply steps_ask; assumption
    | apply steps_call; assumption
    | apply steps_sleep; assumption
    | progress unfold log_info, log_warning, log_error
    | apply steps_log; assumption
    | apply steps_bind_lift; [ assumption | intros ? ? ]
    | apply steps_bind; [ assumption | | intros ? ]
    | apply steps_modify; intros ?; left; reflexivity
    | apply steps_try; [ assumption | | intros ? ]
    | match goal with
      | |- steps _ (if ?c then _ else _) => destruct c eqn:?
      | |- steps _ (match ?x with _ => _ end) => destruct x
      end ].

Ltac steps_auto := repeat steps_step.

Lemma SEN66_guard_refl (s : SEN66.self) : SEN66_guard s s.
Proof. left. reflexivity. Qed.

Lemma SEN66_guard_trans (s1 s2 s3 : SEN66.self) :
  SEN66_guard s1 s2 -> SEN66_guard s2 s3 -> SEN66_guard s1 s3.
Proof.
  unfold SEN66_guard. intros [H12|H12] [H23|H23]; eauto.
  - left. congruence.
  - right. rewrite H23. exact H12.
Qed.

(** The particulate driver replaces its cache only by a record that its
    validation accepts. *)
Lemma SEN66_cache_guarded av : steps SEN66_guard (SEN66.read_measurement av).
Proof.
  pose proof SEN66_guard_refl as Hrefl. pose proof SEN66_guard_trans as Htrans.
  unfold SEN66.read_measurement, SEN66.read_measurement_body, SEN66.initialize,
    SEN66.cleanup.
  destruct av; cbv beta iota delta [negb]; steps_auto.
  intros s w. run.
  destruct (SEN66.is_valid_reading _) as [[|]|] eqn:E; simpl.
  - right. eexists. split; [ reflexivity | exact E ].
  - left. reflexivity.
  - left. reflexivity.
Qed.

Lemma MICS6814_guard_refl (s : MICS6814.self) : MICS6814_guard s s.
Proof. left. reflexivity. Qed.

Lemma MICS6814_guard_trans (s1 s2 s3 : MICS6814.self) :
  MICS6814_guard s1 s2 -> MICS6814_guard s2 s3 -> MICS6814_guard s1 s3.
Proof.
  unfold MICS6814_guard. intros [H12|H12] [H23|H23]; eauto.
  - left. congruence.
  - right. rewrite H23. exact H12.
Qed.

(** The resistive driver replaces its cache only after a reading that its
    validation accepts. *)
Lemma MICS6814_cache_guarded av : steps MICS6814_guard (MICS6814.read_measurement av).
Proof.
  pose proof MICS6814_guard_refl as Hrefl. pose proof MICS6814_guard_trans as Htrans.
  unfold MICS6814.read_measurement, MICS6814.read_measurement_body, MICS6814.initialize,
    MICS6814.cleanup, MICS6814.update_led.
  destruct av; cbv beta iota delta [negb]; steps_auto.
  intros s w. run. simpl. right.
  destruct a2 as [[ox|] [red|] [n|]]; try discriminate.
  simpl in *. injection H2 as <-. injection H3 as <-. injection H4 as <-.
  eexists _, ox, red, n, a3. split; [ reflexivity | split; [ reflexivity | ] ].
  destruct (MICS6814.is_valid_reading a3 _); [ reflexivity | discriminate ].
Qed.

(** ** The conversion chain of the ADC driver *)

Lemma adc_counts_in (r : Z) : 0 <= r <= 4095 -> In r adc_counts.
Proof.
  intros Hr. unfold adc_counts. rewrite <- (Z2Nat.id r) by lia.
  apply in_map, in_seq. lia.
Qed.

Lemma float_of_int_adc_count (r : Z) :
  0 <= r <= 4095 -> exists fr, float_of_int r = Ok fr.
Proof.
  intros Hr.
  assert (H : forallb (fun r => negb (raised (float_of_int r))) adc_counts = true)
    by (vm_compute; reflexivity).
  rewrite forallb_forall in H. specialize (H r (adc_counts_in r Hr)).
  destruct (float_of_int r) as [fr|e]; [ eauto | discriminate ].
Qed.

Lemma adc_to_voltage_eq (s : MCP3208.self) (r : Z) (fr : float) :
  float_of_int r = Ok fr ->
  MCP3208.adc_to_voltage s r
  = Ok (PrimFloat.mul (PrimFloat.div fr 4095%float) (MCP3208.vref s)).
Proof. intros H. unfold MCP3208.adc_to_voltage. rewrite H. reflexivity. Qed.

Lemma calculate_iout_eq (s : MCP3208.self) (vout rf : float) :
  float_of_int (MCP3208.r_feedback s) = Ok rf ->
  PrimFloat.eqb rf 0%float = false ->
  MCP3208.calculate_iout s vout
  = Ok (PrimFloat.mul (PrimFloat.div (PrimFloat.sub (MCP3208.vref s) vout) rf) 1e9%float).
Proof.
  intros H H0. unfold MCP3208.calculate_iout, float_truediv. rewrite H. simpl.
  rewrite H0. reflexivity.
Qed.

Lemma calculate_concentration_eq (iout : float) (s : MCP3208.self) (w : env) :
  PrimFloat.leb (MCP3208.sensitivity s) 0%float = false ->
  MCP3208.calculate_concentration iout s w
  = (Ok (PrimFloat.div iout (MCP3208.sensitivity s)), s, w).
Proof.
  intros H. unfold MCP3208.calculate_concentration. run. rewrite H.
  rewrite (float_truediv_positive _ _ H). reflexivity.
Qed.

Lemma calculate_concentration_guard (iout : float) (s : MCP3208.self) (w : env) :
  PrimFloat.leb (MCP3208.sensitivity s) 0%float = true ->
  MCP3208.calculate_concentration iout s w
  = (Ok 0%float, s,
     {| tape := tape w; sent := sent w;
        log := log w ++ [(Error, "Invalid sensitivity value")] |}).
Proof. intros H. unfold MCP3208.calculate_concentration. run. now rewrite H. Qed.

(** A read on a connected driver: the record carries the whole chain, and
    it is returned and cached without being validated. *)
Lemma MCP3208_read_record (s : MCP3208.self) (w : env) (b0 hi lo : Z) (t : list reply)
    (v i : float) :
  MCP3208.initialized s = true ->
  MCP3208.spi s = true ->
  tape w = Bytes [b0; hi; lo] :: t ->
  MCP3208.adc_to_voltage s (adc_count hi lo) = Ok v ->
  MCP3208.calculate_iout s v = Ok i ->
  PrimFloat.leb (MCP3208.sensitivity s) 0%float = false ->
  PrimFloat.ltb (PrimFloat.div i (MCP3208.sensitivity s)) 0%float = false ->
  let c := PrimFloat.div i (MCP3208.sensitivity s) in
  let data := MCP3208_record (MCP3208.sensor_name s) (adc_count hi lo) v i
                (Flt c) (Flt (PrimFloat.mul c 1000%float)) in
  MCP3208.read_measurement s w
  = (Ok (Some data), MCP3208.set_last_valid_reading (Some data) s,
     {| tape := t; sent := sent w ++ [SpiXfer2 (MCP3208.command s)]; log := log w |}).
Proof.
  intros Hinit Hspi Htape Hv Hi Hsens Hneg c data.
  destruct w as [tp snt lg]. simpl in Htape. subst tp.
  unfold MCP3208.read_measurement, MCP3208.read_measurement_body, MCP3208.read_channel,
    MCP3208.xfer2.
  run. rewrite Hinit. cbv beta iota delta [negb orb]. rewrite Hinit, Hspi.
  cbv beta iota delta [negb orb tape sent log index nth_error id].
  fold (adc_count hi lo).
  rewrite Hv. cbv beta iota. rewrite Hi. cbv beta iota.
  rewrite calculate_concentration_eq by assumption.
  cbv beta iota. rewrite Hneg. reflexivity.
Qed.

Lemma serial_ready_reached :
  DGS2.read_measurement Literal.int_of_str Literal.float_of_str
    (DGS2.__init__ "/dev/ttyUSB0" 9600 "CO") (world [Done; Done; Line sample_line])
  = (Ok (DGS2.last_valid_reading serial_ready), serial_ready,
     {| tape := [];
        sent := [SerialOpen "/dev/ttyUSB0" 9600; Sleep (Int 2);
                 SerialWrite DGS2.CR; Sleep (Flt 0.1); SerialReadline];
        log := [(Error, "Sensor not initialized");
                (Warning, "No response from DGS2 sensor during initialization");
                (Info, "Initialized sensor")] |}).
Proof. reflexivity. Qed.

Lemma hcho_ready_reached :
  HCHOSensor.default = Ok hcho_fresh /\
  MCP3208.read_measurement hcho_fresh (world [Done; Done; Done; Bytes [0; 15; 250]])
  = (Ok (Some hcho_first), hcho_ready,
     {| tape := [];
        sent := [SpiNew; SpiOpen 0 0; SpiSpeed 1000000; SpiXfer2 [6; 0; 0]];
        log := [(Info, "MCP3208 sensor initialized")] |}) /\
  MCP3208.last_valid_reading hcho_ready = Some hcho_first /\
  MCP3208.is_valid_reading hcho_ready (Some hcho_first) = Ok true.
Proof. repeat split. Qed.

(** C1 fails on the code.  The particulate and the resistive drivers guard
    their cache by validation; the serial and the ADC drivers do not.  On a
    line at 90 degrees the serial driver caches and returns the record that
    its own validation rejects; with the SPI transfer failing the ADC driver
    takes the count 0, computes about 4262 ppm, and caches and returns the
    record that its own validation rejects. *)
Theorem cache_refreshed_without_validation :
  (forall av, steps SEN66_guard (SEN66.read_measurement av)) /\
  (forall av, steps MICS6814_guard (MICS6814.read_measurement av)) /\
  (exists w',
      DGS2.read_measurement Literal.int_of_str Literal.float_of_str serial_ready
        (world [Done; Line hot_line])
      = (Ok (Some (DGS2_record "CO" 5000 (Flt 90) (Flt 40) 100 200 300 (Flt 5))),
         DGS2.set_last_valid_reading
           (Some (DGS2_record "CO" 5000 (Flt 90) (Flt 40) 100 200 300 (Flt 5)))
           serial_ready, w')) /\
  DGS2.is_valid_reading (Some (DGS2_record "CO" 5000 (Flt 90) (Flt 40) 100 200 300 (Flt 5)))
  = Ok false /\
  (exists v i c w',
      MCP3208.read_measurement hcho_ready (world [Fault])
      = (Ok (Some (MCP3208_record "HCHO" 0 v i (Flt c) (Flt (PrimFloat.mul c 1000)))),
         MCP3208.set_last_valid_reading
           (Some (MCP3208_record "HCHO" 0 v i (Flt c) (Flt (PrimFloat.mul c 1000))))
           hcho_ready, w') /\
      near c 4262.3%float 0.1%float = true /\
      MCP3208.is_valid_reading hcho_ready
        (Some (MCP3208_record "HCHO" 0 v i (Flt c) (Flt (PrimFloat.mul c 1000))))
      = Ok false).
Proof.
  split; [ exact SEN66_cache_guarded | ].
  split; [ exact MICS6814_cache_guarded | ].
  split; [ eexists; reflexivity | ].
  split; [ reflexivity | ].
  eexists _, _, _, _. split; [ reflexivity | split; reflexivity ].
Qed.

(** C2 fails on the code at its scenario.  The chain itself is as stated:
    voltage = (raw / 4095) * Vref, current = ((Vref - voltage) / R_feedback)
    * 1e9, concentration = current / sensitivity, or 0.0 with an error
    logged when the sensitivity is zero or negative, and ppb = concentration
    * 1000.  With Vref 3.282, feedback 22000, sensitivity 35 and the count
    2000 the voltage is within 0.0001 of 1.6029, the current within 1 of
    76322 and the concentration within 0.1 of 2180.6, and validation rejects
    the record; but the read returns that record and caches it, where the
    claim has the last-known-good record returned. *)
Theorem conversion_chain_with_unvalidated_read :
  (forall s r,
      0 <= r <= 4095 ->
      exists fr,
        float_of_int r = Ok fr /\
        MCP3208.adc_to_voltage s r
        = Ok (PrimFloat.mul (PrimFloat.div fr 4095%float) (MCP3208.vref s))) /\
  (forall s vout rf,
      float_of_int (MCP3208.r_feedback s) = Ok rf ->
      PrimFloat.eqb rf 0%float = false ->
      MCP3208.calculate_iout s vout
      = Ok (PrimFloat.mul (PrimFloat.div (PrimFloat.sub (MCP3208.vref s) vout) rf)
              1e9%float)) /\
  (forall iout s w,
      PrimFloat.leb (MCP3208.sensitivity s) 0%float = false ->
      MCP3208.calculate_concentration iout s w
      = (Ok (PrimFloat.div iout (MCP3208.sensitivity s)), s, w)) /\
  (forall iout s w,
      PrimFloat.leb (MCP3208.sensitivity s) 0%float = true ->
      MCP3208.calculate_concentration iout s w
      = (Ok 0%float, s,
         {| tape := tape w; sent := sent w;
            log := log w ++ [(Error, "Invalid sensitivity value")] |})) /\
  (forall s w b0 hi lo t v i,
      MCP3208.initialized s = true ->
      MCP3208.spi s = true ->
      tape w = Bytes [b0; hi; lo] :: t ->
      MCP3208.adc_to_voltage s (adc_count hi lo) = Ok v ->
      MCP3208.calculate_iout s v = Ok i ->
      PrimFloat.leb (MCP3208.sensitivity s) 0%float = false ->
      PrimFloat.ltb (PrimFloat.div i (MCP3208.sensitivity s)) 0%float = false ->
      let c := PrimFloat.div i (MCP3208.sensitivity s) in
      let data := MCP3208_record (MCP3208.sensor_name s) (adc_count hi lo) v i
                    (Flt c) (Flt (PrimFloat.mul c 1000%float)) in
      MCP3208.read_measurement s w
      = (Ok (Some data), MCP3208.set_last_valid_reading (Some data) s,
         {| tape := t; sent := sent w ++ [SpiXfer2 (MCP3208.command s)];
            log := log w |})) /\
  (exists v i c w',
      let fresh := MCP3208_record "HCHO" 2000 v i (Flt c) (Flt (PrimFloat.mul c 1000)) in
      MCP3208.read_measurement hcho_ready (world [Bytes [0; 7; 208]])
      = (Ok (Some fresh), MCP3208.set_last_valid_reading (Some fresh) hcho_ready, w') /\
      near v 1.6029%float 0.0001%float = true /\
      near i 76322%float 1%float = true /\
      near c 2180.6%float 0.1%float = true /\
      MCP3208.is_valid_reading hcho_ready (Some fresh) = Ok false /\
      MCP3208.last_valid_reading hcho_ready = Some hcho_first /\
      MCP3208.is_valid_reading hcho_ready (Some hcho_first) = Ok true).
Proof.
  split.
  { intros s r Hr. destruct (float_of_int_adc_count r Hr) as (fr & E).
    exists fr. split; [ exact E | apply adc_to_voltage_eq; exact E ]. }
  split; [ exact calculate_iout_eq | ].
  split; [ exact calculate_concentration_eq | ].
  split; [ exact calculate_concentration_guard | ].
  split; [ exact MCP3208_read_record | ].
  eexists _, _, _, _. cbv zeta. repeat split.
Qed.

(** ** The voltage conversion of the ADC driver *)

(** *** Shifting a mantissa right *)

Lemma iter_pos_nat {A} (f : A -> A) (p : positive) (x : A) :
  iter_pos f p x = Nat.iter (Pos.to_nat p) f x.
Proof.
  revert x. induction p as [p IH|p IH|]; intros x; cbn [iter_pos].
  - rewrite !IH. rewrite Pos2Nat.inj_xI.
    change (S (2 * Pos.to_nat p)) with (1 + 2 * Pos.to_nat p)%nat.
    replace (1 + 2 * Pos.to_nat p)%nat with (Pos.to_nat p + (Pos.to_nat p + 1))%nat by lia.
    rewrite !Nat.iter_add. reflexivity.
  - rewrite !IH. rewrite Pos2Nat.inj_xO.
    replace (2 * Pos.to_nat p)%nat with (Pos.to_nat p + Pos.to_nat p)%nat by lia.
    rewrite Nat.iter_add. reflexivity.
  - reflexivity.
Qed.

(** One shift halves the mantissa, keeps the bit that fell off as the
    round bit, and folds the previous round bit into the sticky bit. *)
Lemma shr_1_spec (m : Z) (r s : bool) :
  0 <= m ->
  shr_1 {| shr_m := m; shr_r := r; shr_s := s |}
  = {| shr_m := m / 2; shr_r := Z.odd m; shr_s := r || s |}.
Proof.
  intros Hm. destruct m as [|p|p]; [ reflexivity | | lia ].
  destruct p as [p|p|]; simpl shr_1.
  - f_equal. rewrite Pos2Z.inj_xI. symmetry.
    rewrite Z.mul_comm, Z.add_comm. rewrite Z.div_add by lia. reflexivity.
  - f_equal. rewrite Pos2Z.inj_xO. rewrite Z.mul_comm, Z.div_mul by lia. reflexivity.
  - reflexivity.
Qed.

Lemma mod_pow2_step (m n : Z) :
  0 <= n ->
  m mod 2 ^ (n + 1) = m mod 2 ^ n + 2 ^ n * (if Z.odd (m / 2 ^ n) then 1 else 0).
Proof.
  intros Hn. rewrite Z.pow_add_r, Z.pow_1_r by lia.
  rewrite Z.rem_mul_r by lia. rewrite Zmod_odd. reflexivity.
Qed.

Lemma shr_iter (m : Z) (k : nat) :
  0 <= m ->
  Nat.iter (S k) shr_1 {| shr_m := m; shr_r := false; shr_s := false |}
  = shifted m (Z.of_nat k + 1).
Proof.
  intros Hm. induction k as [|k IH].
  - change (Nat.iter 1 shr_1 ?x) with (shr_1 x).
    rewrite shr_1_spec by assumption. unfold shifted.
    change (Z.of_nat 0 + 1) with 1. change (1 - 1) with 0.
    rewrite Z.pow_1_r, Z.pow_0_r, Z.div_1_r, Z.mod_1_r. reflexivity.
  - change (Nat.iter (S (S k)) shr_1 ?x) with (shr_1 (Nat.iter (S k) shr_1 x)).
    rewrite IH. unfold shifted.
    rewrite shr_1_spec by (apply Z.div_pos; lia).
    rewrite Nat2Z.inj_succ.
    replace (Z.succ (Z.of_nat k) + 1 - 1) with (Z.of_nat k + 1) by lia.
    replace (Z.of_nat k + 1 - 1) with (Z.of_nat k) by lia.
    f_equal.
    + rewrite Z.div_div by lia. f_equal.
      replace (Z.succ (Z.of_nat k) + 1) with (Z.of_nat k + 1 + 1) by lia.
      rewrite (Z.pow_add_r 2 (Z.of_nat k + 1) 1) by lia. reflexivity.
    + rewrite mod_pow2_step by lia.
      assert (0 <= m mod 2 ^ Z.of_nat k) by (apply Z.mod_pos_bound; lia).
      assert (0 < 2 ^ Z.of_nat k) by (apply Z.pow_pos_nonneg; lia).
      destruct (Z.odd (m / 2 ^ Z.of_nat k)); simpl.
      * symmetry. apply negb_true_iff, Z.eqb_neq. lia.
      * rewrite Z.mul_0_r, Z.add_0_r. reflexivity.
Qed.

Lemma shr_spec (m e n : Z) :
  0 <= m -> 0 < n ->
  shr {| shr_m := m; shr_r := false; shr_s := false |} e n = (shifted m n, e + n).
Proof.
  intros Hm Hn. destruct n as [|p|p]; try lia.
  unfold shr. rewrite iter_pos_nat.
  destruct (Pos.to_nat p) as [|k] eqn:Hk; [ lia | ].
  rewrite shr_iter by assumption. do 2 f_equal. lia.
Qed.

(** Rounding the shifted record is rounding the quotient to nearest,
    ties to even. *)
Lemma rne_shifted (m n : Z) :
  0 <= m -> 0 < n ->
  round_nearest_even (shr_m (shifted m n)) (loc_of_shr_record (shifted m n)) = rne m n.
Proof.
  intros Hm Hn. unfold shifted, rne. cbn [shr_m loc_of_shr_record].
  assert (Hmod : m mod 2 ^ n
                 = m mod 2 ^ (n - 1)
                   + 2 ^ (n - 1) * (if Z.odd (m / 2 ^ (n - 1)) then 1 else 0)).
  { replace n with (n - 1 + 1) at 1 by lia. apply mod_pow2_step. lia. }
  rewrite Hmod. clear Hmod.
  assert (0 <= m mod 2 ^ (n - 1) < 2 ^ (n - 1)) by (apply Z.mod_pos_bound, Z.pow_pos_nonneg; lia).
  destruct (Z.odd (m / 2 ^ (n - 1))); destruct (Z.eqb_spec (m mod 2 ^ (n - 1)) 0) as [E0|E0];
    cbn [negb round_nearest_even].
  - rewrite E0. rewrite Z.add_0_l, Z.mul_1_r, Z.ltb_irrefl, Z.eqb_refl. reflexivity.
  - destruct (Z.ltb_spec (m mod 2 ^ (n - 1) + 2 ^ (n - 1) * 1) (2 ^ (n - 1))); [ lia | ].
    destruct (Z.eqb_spec (m mod 2 ^ (n - 1) + 2 ^ (n - 1) * 1) (2 ^ (n - 1))); [ lia | ].
    reflexivity.
  - destruct (Z.ltb_spec (m mod 2 ^ (n - 1) + 2 ^ (n - 1) * 0) (2 ^ (n - 1))); [ | lia ].
    reflexivity.
  - destruct (Z.ltb_spec (m mod 2 ^ (n - 1) + 2 ^ (n - 1) * 0) (2 ^ (n - 1))); [ | lia ].
    reflexivity.
Qed.

(** *** The number of bits of a mantissa *)

Lemma digits2_size (p : positive) : digits2_pos p = Pos.size p.
Proof. induction p; simpl; congruence. Qed.

Lemma digits2_bounds (p : positive) :
  2 ^ (Z.pos (digits2_pos p) - 1) <= Z.pos p < 2 ^ Z.pos (digits2_pos p).
Proof.
  rewrite digits2_size. split.
  - pose proof (Pos.size_le p) as H.
    assert (Hs : Z.pos (2 ^ Pos.size p) <= Z.pos p~0) by exact H.
    rewrite Pos2Z.inj_pow in Hs. change (Z.pos p~0) with (2 * Z.pos p) in Hs.
    replace (Z.pos (Pos.size p)) with (Z.pos (Pos.size p) - 1 + 1) in Hs by lia.
    rewrite Z.pow_add_r, Z.pow_1_r in Hs by lia. lia.
  - pose proof (Pos.size_gt p) as H.
    assert (Hs : Z.pos p < Z.pos (2 ^ Pos.size p)) by exact H.
    now rewrite Pos2Z.inj_pow in Hs.
Qed.

Lemma fexp_binary64 (d : Z) : fexp prec emax d = Z.max (d - 53) (-1074).
Proof. reflexivity. Qed.

Lemma rne_bounds (m n : Z) : m / 2 ^ n <= rne m n <= m / 2 ^ n + 1.
Proof.
  unfold rne.
  destruct (_ <? _); [ lia | ]. destruct (_ =? _); [ | lia ]. destruct (Z.even _); lia.
Qed.

Lemma shr_nop (mrs : shr_record) (e n : Z) : n <= 0 -> shr mrs e n = (mrs, e).
Proof. destruct n; [ reflexivity | lia | reflexivity ]. Qed.

Lemma pow2_lt_digits (d a : Z) : 0 <= a -> 2 ^ (d - 1) < 2 ^ a -> d <= a.
Proof.
  intros Ha H. destruct (Z.le_gt_cases d a) as [|Hgt]; [ assumption | exfalso ].
  assert (2 ^ a <= 2 ^ (d - 1)) by (apply Z.pow_le_mono_r; lia). lia.
Qed.

(** *** Rounding an exact product or quotient

    When the mantissa has bits to drop, [binary_round_aux] rounds it to
    nearest at the exponent [E] of its format, and the rounded mantissa is
    at most 2^53: at least 2^52 unless [E] is the least exponent. *)
Lemma binary_round_aux_shift (s : bool) (m : positive) (e : Z) :
  let E := fexp prec emax (Z.pos (digits2_pos m) + e) in
  let q := rne (Z.pos m) (E - e) in
  e < E ->
  binary_round_aux prec emax s (Z.pos m) e loc_Exact = finish s q E
  /\ 0 <= q <= 2 ^ 53 /\ (-1074 < E -> 2 ^ 52 <= q).
Proof.
  intros E q He. subst q.
  pose proof (digits2_bounds m) as [Hlo Hhi].
  set (d := Z.pos (digits2_pos m)) in *.
  assert (HE : E = Z.max (d + e - 53) (-1074)) by reflexivity.
  assert (Hn : 0 < E - e) by lia.
  assert (H2n : 0 < 2 ^ (E - e)) by (apply Z.pow_pos_nonneg; lia).
  pose proof (rne_bounds (Z.pos m) (E - e)) as Hq.
  remember (rne (Z.pos m) (E - e)) as q eqn:Eq.
  assert (Hq0 : 0 <= Z.pos m / 2 ^ (E - e)) by (apply Z.div_pos; lia).
  assert (Hqhi : Z.pos m / 2 ^ (E - e) < 2 ^ 53).
  { apply Z.div_lt_upper_bound; [ lia | ].
    rewrite <- Z.pow_add_r by lia.
    eapply Z.lt_le_trans; [ exact Hhi | ]. apply Z.pow_le_mono_r; lia. }
  assert (Hqlo : -1074 < E -> 2 ^ 52 <= Z.pos m / 2 ^ (E - e)).
  { intros HEn. apply Z.div_le_lower_bound; [ lia | ].
    rewrite <- Z.pow_add_r by lia.
    eapply Z.le_trans; [ | exact Hlo ]. apply Z.pow_le_mono_r; lia. }
  split; [ | split; [ lia | intros HEn; specialize (Hqlo HEn); lia ] ].
  unfold binary_round_aux, shr_fexp.
  cbn [Zdigits2 shr_record_of_loc]. fold d. fold E.
  rewrite shr_spec by lia. rewrite rne_shifted by lia.
  replace (e + (E - e)) with E by lia. rewrite <- Eq. clear Eq.
  destruct q as [|p|p]; [ | | lia ].
  - cbn [Zdigits2]. rewrite shr_nop by (rewrite fexp_binary64; lia). reflexivity.
  - cbn [Zdigits2 finish].
    destruct (Z.ltb_spec (Z.pos p) (2 ^ 53)) as [Hlt|Hge].
    + pose proof (digits2_bounds p) as [Hplo _].
      assert (Z.pos (digits2_pos p) <= 53) by (apply pow2_lt_digits; lia).
      rewrite shr_nop by (rewrite fexp_binary64; lia). reflexivity.
    + assert (Hp : Z.pos p = 2 ^ 53).
      { revert Hq Hqhi Hge. generalize (Z.pos m / 2 ^ (E - e)). intros x. lia. }
      injection Hp as ->.
      replace (Z.pos (digits2_pos 9007199254740992)) with 54 by reflexivity.
      rewrite fexp_binary64. replace (Z.max (54 + E - 53) (-1074) - E) with 1 by lia.
      rewrite shr_spec; [ reflexivity | apply Pos2Z.is_nonneg | lia ].
Qed.

(** *** The order of the non-negative floats *)

Lemma SFleb_rank (x y : spec_float) :
  ranked x -> ranked y -> SFleb x y = (rank x <=? rank y).
Proof.
  unfold SFleb.
  destruct x as [sx|[|]| |[|] mx ex], y as [sy|[|]| |[|] my ey];
    cbn [ranked rank SFcompare]; try tauto; intros Hx Hy;
    change (2 ^ 53) with 9007199254740992 in *; symmetry;
    try solve [ reflexivity | apply Z.leb_le; lia | apply Z.leb_gt; lia ].
  destruct (Z.compare_spec ex ey) as [->|Hlt|Hgt].
  - change (Pos.compare_cont Eq mx my) with (Z.pos mx ?= Z.pos my).
    destruct (Z.compare_spec (Z.pos mx) (Z.pos my));
      [ apply Z.leb_le | apply Z.leb_le | apply Z.leb_gt ]; lia.
  - apply Z.leb_le. lia.
  - apply Z.leb_gt. lia.
Qed.

Lemma finish_ranked (q E : Z) :
  0 <= q <= 2 ^ 53 -> -1074 <= E -> ranked (finish false q E).
Proof.
  intros Hq HE. unfold finish. destruct q as [|p|p]; [ exact I | | lia ].
  destruct (Z.ltb_spec (Z.pos p) (2 ^ 53)).
  - destruct (Z.leb_spec E 971); cbn [ranked]; [ lia | exact I ].
  - destruct (Z.leb_spec (E + 1) 971); cbn [ranked]; [ | exact I ].
    split; [ reflexivity | lia ].
Qed.

Lemma finish_mono_q (q1 q2 E : Z) :
  0 <= q1 <= q2 -> q2 <= 2 ^ 53 -> -1074 <= E ->
  rank (finish false q1 E) <= rank (finish false q2 E).
Proof.
  intros H1 H2 HE. unfold finish.
  change (2 ^ 53) with 9007199254740992 in *.
  destruct q1 as [|p1|p1], q2 as [|p2|p2]; try lia; cbn [rank].
  - destruct (Z.ltb_spec (Z.pos p2) 9007199254740992);
      [ destruct (Z.leb_spec E 971) | destruct (Z.leb_spec (E + 1) 971) ];
      cbn [rank]; change (2 ^ 53) with 9007199254740992; lia.
  - destruct (Z.ltb_spec (Z.pos p1) 9007199254740992),
      (Z.ltb_spec (Z.pos p2) 9007199254740992);
      destruct (Z.leb_spec E 971); destruct (Z.leb_spec (E + 1) 971);
      cbn [rank]; change (2 ^ 53) with 9007199254740992;
      change (Z.pos (2 ^ 52)) with 4503599627370496; lia.
Qed.

Lemma finish_mono_E (q1 q2 E1 E2 : Z) :
  0 <= q1 <= 2 ^ 53 -> 2 ^ 52 <= q2 <= 2 ^ 53 -> -1074 <= E1 < E2 ->
  rank (finish false q1 E1) <= rank (finish false q2 E2).
Proof.
  intros H1 H2 HE. unfold finish.
  change (2 ^ 53) with 9007199254740992 in *.
  change (2 ^ 52) with 4503599627370496 in *.
  destruct q1 as [|p1|p1], q2 as [|p2|p2]; try lia; cbn [rank].
  - destruct (Z.ltb_spec (Z.pos p2) 9007199254740992);
      [ destruct (Z.leb_spec E2 971) | destruct (Z.leb_spec (E2 + 1) 971) ];
      cbn [rank]; change (2 ^ 53) with 9007199254740992; lia.
  - destruct (Z.ltb_spec (Z.pos p1) 9007199254740992),
      (Z.ltb_spec (Z.pos p2) 9007199254740992);
      destruct (Z.leb_spec E1 971); destruct (Z.leb_spec (E1 + 1) 971);
      destruct (Z.leb_spec E2 971); destruct (Z.leb_spec (E2 + 1) 971);
      cbn [rank]; change (2 ^ 53) with 9007199254740992;
      change (Z.pos (2 ^ 52)) with 4503599627370496; lia.
Qed.

(** *** Rounding to nearest is monotone *)

Lemma rne_scale (m n k : Z) :
  0 < n -> 0 <= k -> rne (m * 2 ^ k) (n + k) = rne m n.
Proof.
  intros Hn Hk. unfold rne.
  assert (Hk2 : 0 < 2 ^ k) by (apply Z.pow_pos_nonneg; lia).
  assert (Hn2 : 0 < 2 ^ n) by (apply Z.pow_pos_nonneg; lia).
  assert (Hh2 : 0 < 2 ^ (n - 1)) by (apply Z.pow_pos_nonneg; lia).
  rewrite (Z.pow_add_r 2 n k) by lia.
  rewrite Z.div_mul_cancel_r by lia.
  rewrite Z.mul_mod_distr_r by lia.
  replace (n + k - 1) with (n - 1 + k) by lia.
  rewrite (Z.pow_add_r 2 (n - 1) k) by lia.
  assert (Hr : 0 <= m mod 2 ^ n) by (apply Z.mod_pos_bound; lia).
  destruct (Z.ltb_spec (m mod 2 ^ n) (2 ^ (n - 1))) as [Hlt|Hge].
  - destruct (Z.ltb_spec (m mod 2 ^ n * 2 ^ k) (2 ^ (n - 1) * 2 ^ k)); [ reflexivity | nia ].
  - destruct (Z.ltb_spec (m mod 2 ^ n * 2 ^ k) (2 ^ (n - 1) * 2 ^ k)); [ nia | ].
    destruct (Z.eqb_spec (m mod 2 ^ n) (2 ^ (n - 1))) as [Heq|Hne].
    + rewrite Heq, Z.eqb_refl. reflexivity.
    + destruct (Z.eqb_spec (m mod 2 ^ n * 2 ^ k) (2 ^ (n - 1) * 2 ^ k)); [ nia | ].
      reflexivity.
Qed.

Lemma rne_mono (v1 v2 n : Z) : 0 <= n -> v1 <= v2 -> rne v1 n <= rne v2 n.
Proof.
  intros Hn Hv.
  assert (Hn2 : 0 < 2 ^ n) by (apply Z.pow_pos_nonneg; lia).
  pose proof (Z.div_le_mono v1 v2 (2 ^ n) Hn2 Hv) as Hq.
  pose proof (rne_bounds v1 n) as B1. pose proof (rne_bounds v2 n) as B2.
  destruct (Z.eq_dec (v1 / 2 ^ n) (v2 / 2 ^ n)) as [Heq|Hne]; [ | lia ].
  assert (Hr : v1 mod 2 ^ n <= v2 mod 2 ^ n).
  { pose proof (Z.div_mod v1 (2 ^ n)). pose proof (Z.div_mod v2 (2 ^ n)).
    rewrite Heq in *. lia. }
  unfold rne. rewrite Heq.
  destruct (Z.ltb_spec (v1 mod 2 ^ n) (2 ^ (n - 1)));
    destruct (Z.ltb_spec (v2 mod 2 ^ n) (2 ^ (n - 1)));
    destruct (Z.eqb_spec (v1 mod 2 ^ n) (2 ^ (n - 1)));
    destruct (Z.eqb_spec (v2 mod 2 ^ n) (2 ^ (n - 1)));
    destruct (Z.even (v2 / 2 ^ n)); lia.
Qed.

(** Two positive numbers, given with mantissa and exponent, keep their
    order when each is rounded to binary64. *)
Lemma binary_round_aux_mono (m1 m2 : positive) (e1 e2 K : Z) :
  e1 < fexp prec emax (Z.pos (digits2_pos m1) + e1) ->
  e2 < fexp prec emax (Z.pos (digits2_pos m2) + e2) ->
  0 <= e1 + K -> 0 <= e2 + K ->
  Z.pos m1 * 2 ^ (e1 + K) <= Z.pos m2 * 2 ^ (e2 + K) ->
  SFleb (binary_round_aux prec emax false (Z.pos m1) e1 loc_Exact)
        (binary_round_aux prec emax false (Z.pos m2) e2 loc_Exact) = true.
Proof.
  intros He1 He2 HK1 HK2 Hv.
  destruct (binary_round_aux_shift false m1 e1 He1) as (-> & Hq1 & Hn1).
  destruct (binary_round_aux_shift false m2 e2 He2) as (-> & Hq2 & Hn2).
  pose proof (digits2_bounds m1) as [Hlo1 Hhi1].
  pose proof (digits2_bounds m2) as [Hlo2 Hhi2].
  rewrite !fexp_binary64 in *.
  remember (Z.pos (digits2_pos m1)) as d1 eqn:Hd1.
  remember (Z.pos (digits2_pos m2)) as d2 eqn:Hd2.
  assert (Hd1' : 0 < d1) by lia. assert (Hd2' : 0 < d2) by lia. clear Hd1 Hd2.
  remember (Z.max (d1 + e1 - 53) (-1074)) as E1 eqn:HE1.
  remember (Z.max (d2 + e2 - 53) (-1074)) as E2 eqn:HE2.
  remember (rne (Z.pos m1) (E1 - e1)) as q1 eqn:Hq1'.
  remember (rne (Z.pos m2) (E2 - e2)) as q2 eqn:Hq2'.
  rewrite SFleb_rank by (apply finish_ranked; lia).
  apply Z.leb_le.
  destruct (Z.lt_trichotomy E1 E2) as [Hlt|[Heq|Hgt]].
  - apply finish_mono_E; lia.
  - rewrite <- Heq. apply finish_mono_q; try lia. split; [ lia | ].
    rewrite Hq1', Hq2'.
    rewrite <- (rne_scale (Z.pos m1) (E1 - e1) (e1 + K)) by lia.
    rewrite <- Heq.
    rewrite <- (rne_scale (Z.pos m2) (E1 - e2) (e2 + K)) by lia.
    replace (E1 - e1 + (e1 + K)) with (E1 + K) by lia.
    replace (E1 - e2 + (e2 + K)) with (E1 + K) by lia.
    apply rne_mono; lia.
  - exfalso.
    assert (H1 : 2 ^ (d2 + e2 + K) <= Z.pos m1 * 2 ^ (e1 + K)).
    { eapply Z.le_trans; [ | apply Z.mul_le_mono_nonneg_r; [ | exact Hlo1 ] ].
      - rewrite <- Z.pow_add_r by lia. apply Z.pow_le_mono_r; lia.
      - apply Z.pow_nonneg; lia. }
    assert (H2 : Z.pos m2 * 2 ^ (e2 + K) < 2 ^ (d2 + e2 + K)).
    { replace (d2 + e2 + K) with (d2 + (e2 + K)) by lia.
      rewrite (Z.pow_add_r 2 d2 (e2 + K)) by lia.
      apply Z.mul_lt_mono_pos_r; [ apply Z.pow_pos_nonneg; lia | exact Hhi2 ]. }
    lia.
Qed.

(** *** Products with a non-negative reference voltage *)

Lemma ranked_rank (x : spec_float) : ranked x -> 0 <= rank x.
Proof.
  destruct x as [[|]|[|]| |[|] m e]; simpl; try tauto; lia.
Qed.

Lemma digits2_unique (p : positive) (k : Z) :
  2 ^ (k - 1) <= Z.pos p < 2 ^ k -> Z.pos (digits2_pos p) = k.
Proof.
  intros [Hlo Hhi]. destruct (digits2_bounds p) as [Hlo' Hhi'].
  assert (0 < k).
  { destruct (Z.le_gt_cases k 0) as [Hk|Hk]; [ | exact Hk ].
    exfalso. destruct (Z.eq_dec k 0) as [->|Hne].
    - simpl in Hhi. lia.
    - rewrite (Z.pow_neg_r 2 k) in Hhi by lia. lia. }
  assert (k <= Z.pos (digits2_pos p)).
  { apply pow2_lt_digits; [ lia | lia ]. }
  assert (Z.pos (digits2_pos p) <= k).
  { apply pow2_lt_digits; [ lia | lia ]. }
  lia.
Qed.

Lemma bounded_inv (m : positive) (e : Z) :
  bounded prec emax m e = true ->
  Z.max (Z.pos (digits2_pos m) - 53 + e) (-1074) = e /\ e <= 971.
Proof.
  unfold bounded, canonical_mantissa. rewrite fexp_binary64.
  intros H. apply andb_true_iff in H. destruct H as [H1 H2].
  apply Z.eqb_eq in H1. apply Z.leb_le in H2.
  change (emax - prec) with 971 in H2. lia.
Qed.

(** The product of a 53-bit mantissa below 1 with a binary64 mantissa has
    bits to drop. *)
Lemma product_shift (mx my : positive) (ex ey : Z) :
  2 ^ 52 <= Z.pos mx -> ex < 0 -> bounded prec emax my ey = true ->
  ex + ey < fexp prec emax (Z.pos (digits2_pos (mx * my)) + (ex + ey)).
Proof.
  intros Hmx Hex Hb. apply bounded_inv in Hb. destruct Hb as [Hb _].
  rewrite fexp_binary64.
  destruct (digits2_bounds my) as [Hlo _].
  destruct (digits2_bounds (mx * my)) as [_ Hhi].
  assert (Hd : 52 + Z.pos (digits2_pos my) <= Z.pos (digits2_pos (mx * my))).
  { apply pow2_lt_digits; [ lia | ].
    eapply Z.le_lt_trans; [ | exact Hhi ].
    replace (52 + Z.pos (digits2_pos my) - 1) with (52 + (Z.pos (digits2_pos my) - 1)) by lia.
    rewrite (Z.pow_add_r 2 52 (Z.pos (digits2_pos my) - 1)) by lia.
    rewrite Pos2Z.inj_mul. apply Z.mul_le_mono_nonneg; lia. }
  lia.
Qed.

Lemma SFmul_scaled (x : spec_float) (my : positive) (ey : Z) :
  scaled x = true -> bounded prec emax my ey = true ->
  ranked (SFmul prec emax x (S754_finite false my ey)).
Proof.
  destruct x as [sx|sx| |[|] mx ex]; try discriminate.
  simpl. intros Hx Hy.
  apply andb_true_iff in Hx. destruct Hx as [Hx Hex].
  apply andb_true_iff in Hx. destruct Hx as [Hmx _].
  apply Z.leb_le in Hmx. apply Z.ltb_lt in Hex.
  destruct (binary_round_aux_shift false (mx * my) (ex + ey) (product_shift mx my ex ey Hmx Hex Hy))
    as (-> & Hq & _).
  apply finish_ranked; [ exact Hq | ].
  rewrite fexp_binary64. lia.
Qed.

Lemma SFmul_mono (x1 x2 : spec_float) (my : positive) (ey : Z) :
  scaled x1 = true -> scaled x2 = true -> bounded prec emax my ey = true ->
  units x1 <= units x2 ->
  SFleb (SFmul prec emax x1 (S754_finite false my ey))
        (SFmul prec emax x2 (S754_finite false my ey)) = true.
Proof.
  destruct x1 as [s1|s1| |[|] m1 e1]; try discriminate.
  destruct x2 as [s2|s2| |[|] m2 e2]; try discriminate.
  simpl. intros H1 H2 Hy Hu.
  apply andb_true_iff in H1. destruct H1 as [H1 He1].
  apply andb_true_iff in H1. destruct H1 as [Hm1 Hl1].
  apply andb_true_iff in H2. destruct H2 as [H2 He2].
  apply andb_true_iff in H2. destruct H2 as [Hm2 Hl2].
  apply Z.leb_le in Hm1, Hm2, Hl1, Hl2. apply Z.ltb_lt in He1, He2.
  destruct (bounded_inv my ey Hy) as [Hey _].
  apply (binary_round_aux_mono (m1 * my) (m2 * my) (e1 + ey) (e2 + ey) (65 + 1074)).
  - apply product_shift; assumption.
  - apply product_shift; assumption.
  - lia.
  - lia.
  - replace (e1 + ey + (65 + 1074)) with ((e1 + 65) + (ey + 1074)) by lia.
    replace (e2 + ey + (65 + 1074)) with ((e2 + 65) + (ey + 1074)) by lia.
    rewrite (Z.pow_add_r 2 (e1 + 65) (ey + 1074)) by lia.
    rewrite (Z.pow_add_r 2 (e2 + 65) (ey + 1074)) by lia.
    rewrite !Pos2Z.inj_mul.
    assert (0 <= 2 ^ (ey + 1074)) by (apply Z.pow_nonneg; lia).
    assert (0 <= Z.pos my * 2 ^ (ey + 1074)) by lia.
    replace (Z.pos m1 * Z.pos my * (2 ^ (e1 + 65) * 2 ^ (ey + 1074)))
      with (Z.pos m1 * 2 ^ (e1 + 65) * (Z.pos my * 2 ^ (ey + 1074))) by ring.
    replace (Z.pos m2 * Z.pos my * (2 ^ (e2 + 65) * 2 ^ (ey + 1074)))
      with (Z.pos m2 * 2 ^ (e2 + 65) * (Z.pos my * 2 ^ (ey + 1074))) by ring.
    apply Z.mul_le_mono_nonneg_r; assumption.
Qed.

(** *** The quotients [r / 4095.0], for the 4096 counts *)

Lemma ratio_zero : ratio 0 = S754_zero false.
Proof. vm_compute. reflexivity. Qed.

Lemma ratio_full : ratio 4095 = Prim2SF 1%float.
Proof. vm_compute. reflexivity. Qed.

Lemma ratio_scaled (r : Z) : 1 <= r <= 4095 -> scaled (ratio r) = true.
Proof.
  intros Hr.
  assert (H : forallb (fun r => (r =? 0) || scaled (ratio r)) adc_counts = true)
    by (vm_compute; reflexivity).
  rewrite forallb_forall in H. specialize (H r (adc_counts_in r ltac:(lia))).
  apply orb_true_iff in H. destruct H as [H|H]; [ | exact H ].
  apply Z.eqb_eq in H. lia.
Qed.

Lemma ratio_step (r : Z) :
  0 <= r < 4095 -> units (ratio r) <= units (ratio (r + 1)).
Proof.
  intros Hr.
  assert (H : forallb (fun r => units (ratio r) <=? units (ratio (r + 1))) adc_counts = true)
    by (vm_compute; reflexivity).
  rewrite forallb_forall in H. specialize (H r (adc_counts_in r ltac:(lia))).
  apply Z.leb_le in H. exact H.
Qed.

Lemma ratio_mono (r r' : Z) :
  0 <= r -> r <= r' -> r' <= 4095 -> units (ratio r) <= units (ratio r').
Proof.
  intros H0 Hle Hhi.
  replace r' with (r + Z.of_nat (Z.to_nat (r' - r))) in * by lia.
  induction (Z.to_nat (r' - r)) as [|n IH].
  - rewrite Z.add_0_r. lia.
  - rewrite Nat2Z.inj_succ in *.
    eapply Z.le_trans; [ apply IH; lia | ].
    replace (r + Z.succ (Z.of_nat n)) with (r + Z.of_nat n + 1) by lia.
    apply ratio_step. lia.
Qed.

(** *** The voltage conversion *)

(** For a 12-bit count the conversion returns, and its result is the
    binary64 product of the quotient and the reference voltage. *)
Lemma adc_to_voltage_product (s : MCP3208.self) (r : Z) :
  0 <= r <= 4095 ->
  exists v, MCP3208.adc_to_voltage s r = Ok v
            /\ Prim2SF v = SFmul prec emax (ratio r) (Prim2SF (MCP3208.vref s)).
Proof.
  intros Hr. destruct (float_of_int_adc_count r Hr) as (fr & E).
  eexists. split; [ apply adc_to_voltage_eq; exact E | ].
  rewrite mul_spec. unfold ratio. rewrite E. reflexivity.
Qed.

(** Multiplying by 1.0 is exact. *)
Lemma float_mul_1_l (v : float) : PrimFloat.mul 1%float v = v.
Proof.
  rewrite <- (SF2Prim_Prim2SF (PrimFloat.mul 1%float v)), mul_spec.
  rewrite <- (SF2Prim_Prim2SF v) at 2. f_equal.
  pose proof (Prim2SF_valid v) as Hv.
  change (Prim2SF 1%float) with (S754_finite false (2 ^ 52)%positive (-52)).
  destruct (Prim2SF v) as [sv|sv| |sv m e]; try reflexivity.
  unfold SF64mul, SFmul. simpl in Hv.
  destruct (bounded_inv m e Hv) as [He Hmax].
  destruct (digits2_bounds m) as [Hlo Hhi].
  assert (Hd : Z.pos (digits2_pos (2 ^ 52 * m)) = 52 + Z.pos (digits2_pos m)).
  { apply digits2_unique. rewrite Pos2Z.inj_mul.
    replace (52 + Z.pos (digits2_pos m) - 1) with (52 + (Z.pos (digits2_pos m) - 1)) by lia.
    rewrite !Z.pow_add_r by lia.
    change (Z.pos (2 ^ 52)) with (2 ^ 52). lia. }
  assert (HE : fexp prec emax (Z.pos (digits2_pos (2 ^ 52 * m)) + (-52 + e)) = e).
  { rewrite fexp_binary64, Hd. lia. }
  assert (Hs : -52 + e < fexp prec emax (Z.pos (digits2_pos (2 ^ 52 * m)) + (-52 + e)))
    by (rewrite HE; lia).
  destruct (binary_round_aux_shift (xorb false sv) (2 ^ 52 * m) (-52 + e) Hs) as (-> & _ & _).
  rewrite HE. replace (e - (-52 + e)) with 52 by lia.
  assert (Hq : rne (Z.pos (2 ^ 52 * m)) 52 = Z.pos m).
  { unfold rne. rewrite Pos2Z.inj_mul. change (Z.pos (2 ^ 52)) with (2 ^ 52).
    rewrite (Z.mul_comm (2 ^ 52)), Z.div_mul, Z.mod_mul by lia.
    reflexivity. }
  rewrite Hq. unfold finish.
  assert (Hm : Z.pos m < 2 ^ 53).
  { eapply Z.lt_le_trans; [ exact Hhi | apply Z.pow_le_mono_r; lia ]. }
  apply Z.ltb_lt in Hm. rewrite Hm.
  assert (Hle : (e <=? 971) = true) by (apply Z.leb_le; lia).
  rewrite Hle. reflexivity.
Qed.

Lemma SFmul_ratio_mono (y : spec_float) (r r' : Z) :
  valid_binary y = true ->
  SFleb (S754_zero false) y = true -> SFltb y (S754_infinity false) = true ->
  0 <= r -> r <= r' -> r' <= 4095 ->
  SFleb (SFmul prec emax (ratio r) y) (SFmul prec emax (ratio r') y) = true.
Proof.
  intros Hv Hpos Hfin H0 Hle Hhi.
  destruct y as [sy|[|]| |[|] my ey]; try discriminate.
  - (* a zero reference: every product is a zero *)
    assert (Hz : forall n, 0 <= n <= 4095 ->
              exists z, SFmul prec emax (ratio n) (S754_zero sy) = S754_zero z).
    { intros n Hn. destruct (Z.eq_dec n 0) as [->|Hne].
      - rewrite ratio_zero. simpl. eauto.
      - pose proof (ratio_scaled n ltac:(lia)) as Hs.
        destruct (ratio n) as [sx|sx| |[|] mx ex]; try discriminate. simpl. eauto. }
    destruct (Hz r ltac:(lia)) as (z & ->). destruct (Hz r' ltac:(lia)) as (z' & ->).
    reflexivity.
  - (* a positive finite reference *)
    simpl in Hv.
    destruct (Z.eq_dec r 0) as [->|Hr].
    + rewrite ratio_zero.
      change (SFmul prec emax (S754_zero false) (S754_finite false my ey))
        with (S754_zero false).
      destruct (Z.eq_dec r' 0) as [->|Hr'].
      * rewrite ratio_zero. reflexivity.
      * pose proof (SFmul_scaled (ratio r') my ey (ratio_scaled r' ltac:(lia)) Hv) as Hk.
        rewrite SFleb_rank by (simpl; auto). apply Z.leb_le.
        apply (ranked_rank _ Hk).
    + apply SFmul_mono.
      * apply ratio_scaled; lia.
      * apply ratio_scaled; lia.
      * exact Hv.
      * apply ratio_mono; lia.
Qed.

(** C9, as stated, fails when the reference voltage is negative, which the
    constructor accepts: with Vref = -3.282 the count 0 converts to -0.0
    and the count 4095 to -3.282, so that the voltage decreases. *)
Lemma negative_vref_reverses_order :
  MCP3208.__init__ 0 0 0 1000000 (-3.282)%float 22000 35%float "HCHO" = Ok reversed
  /\ MCP3208.adc_to_voltage reversed 0 = Ok (-0)%float
  /\ MCP3208.adc_to_voltage reversed 4095 = Ok (-3.282)%float
  /\ PrimFloat.leb (-0)%float (-3.282)%float = false.
Proof. repeat split; vm_compute; reflexivity. Qed.

(** C9 (amended).  For a driver whose reference voltage is a finite float
    that is not negative, [adc_to_voltage] returns for every count of the
    converter; over the counts 0 to 4095 it is non-decreasing (a larger
    count never gives a smaller binary64 voltage); at the count 0 it is
    zero; at the count 4095 it is the reference voltage itself, with no
    rounding error. *)
Theorem adc_to_voltage_monotone (s : MCP3208.self) :
  PrimFloat.leb 0%float (MCP3208.vref s) = true ->
  PrimFloat.ltb (MCP3208.vref s) infinity = true ->
  (forall r r', 0 <= r -> r <= r' -> r' <= 4095 ->
     exists v v', MCP3208.adc_to_voltage s r = Ok v
                  /\ MCP3208.adc_to_voltage s r' = Ok v'
                  /\ PrimFloat.leb v v' = true)
  /\ (exists v0, MCP3208.adc_to_voltage s 0 = Ok v0 /\ PrimFloat.eqb v0 0%float = true)
  /\ MCP3208.adc_to_voltage s 4095 = Ok (MCP3208.vref s).
Proof.
  intros Hpos Hfin. rewrite leb_spec in Hpos. rewrite ltb_spec in Hfin.
  change (Prim2SF 0%float) with (S754_zero false) in Hpos.
  change (Prim2SF infinity) with (S754_infinity false) in Hfin.
  pose proof (Prim2SF_valid (MCP3208.vref s)) as Hv.
  split; [ | split ].
  - intros r r' H0 Hle Hhi.
    destruct (adc_to_voltage_product s r ltac:(lia)) as (v & E & P).
    destruct (adc_to_voltage_product s r' ltac:(lia)) as (v' & E' & P').
    exists v, v'. split; [ exact E | split; [ exact E' | ] ].
    rewrite leb_spec, P, P'. apply SFmul_ratio_mono; assumption.
  - destruct (adc_to_voltage_product s 0 ltac:(lia)) as (v & E & P).
    exists v. split; [ exact E | ].
    rewrite eqb_spec, P, ratio_zero.
    destruct (Prim2SF (MCP3208.vref s)) as [sy|[|]| |[|] my ey]; try discriminate;
      reflexivity.
  - destruct (float_of_int_adc_count 4095 ltac:(lia)) as (fr & E).
    rewrite (adc_to_voltage_eq s 4095 fr E). f_equal.
    pose proof ratio_full as Hf. unfold ratio in Hf. rewrite E in Hf.
    rewrite <- (SF2Prim_Prim2SF (PrimFloat.div fr 4095%float)), Hf, SF2Prim_Prim2SF.
    apply float_mul_1_l.
Qed.

Lemma adc_to_voltage_monotone_witness :
  PrimFloat.leb 0%float (MCP3208.vref hcho_fresh) = true
  /\ PrimFloat.ltb (MCP3208.vref hcho_fresh) infinity = true
  /\ (exists v v', MCP3208.adc_to_voltage hcho_fresh 2000 = Ok v
                   /\ MCP3208.adc_to_voltage hcho_fresh 4090 = Ok v'
                   /\ PrimFloat.leb v v' = true)
  /\ MCP3208.adc_to_voltage hcho_fresh 4095 = Ok 3.282%float.
Proof.
  assert (H1 : PrimFloat.leb 0%float (MCP3208.vref hcho_fresh) = true) by reflexivity.
  assert (H2 : PrimFloat.ltb (MCP3208.vref hcho_fresh) infinity = true) by reflexivity.
  destruct (adc_to_voltage_monotone hcho_fresh H1 H2) as (Hm & _ & Hf).
  split; [ exact H1 | split; [ exact H2 | split; [ | exact Hf ] ] ].
  apply Hm; lia.
Defined.
